(** * gacc_mux_mcp: credential resolution and tool bodies of [main.py]

    A shallow embedding of [src/main.py].  Python code that touches the
    process environment, the token files, the identity provider or the
    Google services is written in a small state-and-exception monad over a
    [World]; every such access is also appended to the world's [trace], so
    that "is never read" and "is never invoked" are statements about the
    trace.  The Google client libraries, [json.dumps] and [base64] are not
    part of the repository: they are taken as an interface ([Externals]).

    A Python [str] is a [string]; one [ascii] stands for one character, so
    [String.length] is Python's [len]. *)

From Stdlib Require Import String Ascii List Bool Arith Lia.
From stdpp Require Import base gmap strings list.

Set Warnings "-abstract-large-number".

Import ListNotations.
Local Open Scope string_scope.
Local Open Scope list_scope.

(** ** Exceptions and outcomes *)

Inductive exn : Type :=
  | ValueError (msg : string)
  | RuntimeError (msg : string)
  | KeyError (key : string)
  | TypeError
  | AttributeError
  | FileNotFoundError (path : string)
  | LibraryError (what : string).

Inductive outcome (A : Type) : Type :=
  | Raise (e : exn)
  | Return (a : A).
Arguments Raise {A} e.
Arguments Return {A} a.

(** ** Credentials as the code observes them

    [get_credentials] reads three attributes of a credential object:
    [valid], [expired] and [refresh_token].  [valid] is google-auth's
    property [token is not None and not expired]. *)

Record Credentials : Type := mkCredentials {
  token : option string;
  refresh_token : option string;
  expired : bool
}.

Definition valid (c : Credentials) : bool :=
  match token c with
  | Some _ => negb (expired c)
  | None => false
  end.

(** Python truthiness of a [str] and of an optional [str]. *)
Definition truthy_str (s : string) : bool := negb (String.eqb s "").

Definition truthy (o : option string) : bool :=
  match o with
  | Some s => truthy_str s
  | None => false
  end.

(** ** JSON documents, service requests and the world *)

(** A decoded JSON document, as the Google client hands it to the code.
    A [dict] keeps its insertion order. *)
#[warnings="-register-all"]
Inductive json : Type :=
  | JNull
  | JBool (b : bool)
  | JNum (n : Z)
  | JStr (s : string)
  | JArr (l : list json)
  | JObj (d : list (string * json)).

(** The service requests [main.py] builds and executes. *)
Inductive Request : Type :=
  | MessagesList (q : string) (max_results : Z)
  | MessagesGetMetadata (id : json)
  | ThreadsGetFull (id : string)
  | EventsGet (calendar_id event_id : string)
  | EventsInsert (calendar_id : string) (body : json)
  | EventsUpdate (calendar_id event_id : string) (body : json).

(** What the process does to its surroundings, in the order it does it. *)
Inductive Event : Type :=
  | EnvRead (var : string)
  | FileExists (path : string)
  | FileRead (path : string)
  | FileWrite (path content : string)
  | Refresh (c : Credentials)
  | Print (msg : string)
  | Authorize
  | ServiceCall (c : Credentials) (r : Request).

(** The environment variables, the files next to [main.py], and the events
    so far. *)
Record World : Type := mkWorld {
  environ : gmap string string;
  files : gmap string string;
  trace : list Event
}.

Definition log (e : Event) (w : World) : World :=
  mkWorld (environ w) (files w) (trace w ++ [e]).

Definition M (A : Type) : Type := World -> outcome A * World.

Definition ret {A} (a : A) : M A := fun w => (Return a, w).
Definition raise {A} (e : exn) : M A := fun w => (Raise e, w).
Definition bind {A B} (m : M A) (k : A -> M B) : M B :=
  fun w =>
    match m w with
    | (Return a, w') => k a w'
    | (Raise e, w') => (Raise e, w')
    end.
Definition lift {A} (o : outcome A) : M A := fun w => (o, w).
Definition emit (e : Event) : M unit := fun w => (Return tt, log e w).

Declare Scope py_scope.
Delimit Scope py_scope with py.
Notation "x <- m ;; k" := (bind m (fun x => k))
  (at level 100, m at next level, right associativity) : py_scope.
Notation "m ;;; k" := (bind m (fun _ => k))
  (at level 100, right associativity) : py_scope.
Local Open Scope py_scope.

(** ** Module constants *)

Definition SCOPES : list string :=
  [ "https://www.googleapis.com/auth/gmail.readonly";
    "https://www.googleapis.com/auth/calendar" ].

(** Paths are relative to the directory of [main.py]. *)
Definition CREDENTIALS_PATH : string := "credentials.json".

Definition ACCOUNTS : list (string * string) :=
  [ ("personal", "token_personal.json");
    ("school", "token_school.json");
    ("work", "token_work.json") ].

Definition ENV_TOKENS : list (string * string) :=
  [ ("personal", "GOOGLE_TOKEN_PERSONAL");
    ("school", "GOOGLE_TOKEN_SCHOOL");
    ("work", "GOOGLE_TOKEN_WORK") ].

(** [d.get(k)] on a [dict] with [str] keys. *)
Fixpoint dict_get {V} (d : list (string * V)) (k : string) : option V :=
  match d with
  | [] => None
  | (k', v) :: d' => if String.eqb k' k then Some v else dict_get d' k
  end.

(** ** What the repository calls but does not define *)

Class Externals : Type := {
  (** [json.loads] followed by [Credentials.from_authorized_user_info(_, scopes)] *)
  from_authorized_user_info : string -> list string -> outcome Credentials;
  (** the state of the credential object after [creds.refresh(Request())] *)
  refresh : Credentials -> outcome Credentials;
  (** [InstalledAppFlow.from_client_secrets_file(_, scopes).run_local_server(port=0)],
      given the content of the client-secrets file *)
  run_local_server : string -> list string -> outcome Credentials;
  (** [creds.to_json()] *)
  to_json : Credentials -> string;
  (** [request.execute()] on a service built with the given credentials *)
  execute : Credentials -> Request -> outcome json;
  (** [json.dumps(_, indent=n)] *)
  json_dumps : nat -> json -> string;
  (** [base64.urlsafe_b64decode(_).decode("utf-8", errors="ignore")] *)
  urlsafe_b64decode_utf8 : string -> outcome string
}.

Section CredentialManager.
Context {ext : Externals}.

(** [os.environ.get(env_var)]; a [None] key is a [TypeError]. *)
Definition environ_get (env_var : option string) : M (option string) :=
  match env_var with
  | None => raise TypeError
  | Some v => fun w => (Return (environ w !! v), log (EnvRead v) w)
  end.

(** [os.environ[env_var]] *)
Definition environ_index (env_var : option string) : M string :=
  match env_var with
  | None => raise TypeError
  | Some v =>
      fun w =>
        match environ w !! v with
        | Some s => (Return s, log (EnvRead v) w)
        | None => (Raise (KeyError v), log (EnvRead v) w)
        end
  end.

(** [path.exists()] *)
Definition path_exists (path : string) : M bool :=
  fun w => (Return (bool_decide (is_Some (files w !! path))), log (FileExists path) w).

(** reading a whole file *)
Definition read_text (path : string) : M string :=
  fun w =>
    match files w !! path with
    | Some s => (Return s, log (FileRead path) w)
    | None => (Raise (FileNotFoundError path), log (FileRead path) w)
    end.

(** [path.write_text(content)]; the write is taken to succeed. *)
Definition write_text (path content : string) : M unit :=
  fun w =>
    (Return tt,
     mkWorld (environ w) (<[path := content]> (files w))
             (trace w ++ [FileWrite path content])).

(** [Credentials.from_authorized_user_file(str(path), SCOPES)] *)
Definition from_authorized_user_file (path : string) : M Credentials :=
  s <- read_text path ;;
  lift (from_authorized_user_info s SCOPES).

(** Lines 38-47 of [get_credentials]: where the token comes from. *)
Definition load (env_var : option string) (token_file : string)
  : M (option Credentials) :=
  env_val <- (if truthy env_var then environ_get env_var else ret None) ;;
  if truthy env_val then
    raw <- environ_index env_var ;;
    creds <- lift (from_authorized_user_info raw SCOPES) ;;
    ret (Some creds)
  else
    present <- path_exists token_file ;;
    if present then
      creds <- from_authorized_user_file token_file ;;
      ret (Some creds)
    else ret None.

Definition unknown_account_msg (account : string) : string :=
  "Unknown account: " ++ account
    ++ ". Valid accounts: ['personal', 'school', 'work']".

Definition deployed_msg (account : string) : string :=
  "Token for " ++ account
    ++ " is invalid and cannot be refreshed in deployed environment".

Definition authorize_msg (account : string) : string :=
  "Please authorize the " ++ account ++ " account in your browser...".

(** Lines 56-59: the interactive grant and the write of its token. *)
Definition interactive_flow (account token_file : string) : M Credentials :=
  emit (Print (authorize_msg account)) ;;;
  secrets <- read_text CREDENTIALS_PATH ;;
  emit Authorize ;;;
  creds <- lift (run_local_server secrets SCOPES) ;;
  write_text token_file (to_json creds) ;;;
  ret creds.

(** Lines 53-59: no usable token. *)
Definition no_usable_token (account : string) (env_var : option string)
    (token_file : string) : M Credentials :=
  deployed <- environ_get env_var ;;
  if truthy deployed then raise (RuntimeError (deployed_msg account))
  else interactive_flow account token_file.

Definition get_credentials (account : string) : M Credentials :=
  match dict_get ACCOUNTS account with
  | None => raise (ValueError (unknown_account_msg account))
  | Some token_file =>
      let env_var := dict_get ENV_TOKENS account in
      creds <- load env_var token_file ;;
      match creds with
      | Some c =>
          if negb (valid c) then
            if expired c && truthy (refresh_token c) then
              emit (Refresh c) ;;;
              c' <- lift (refresh c) ;;
              ret c'
            else no_usable_token account env_var token_file
          else ret c
      | None => no_usable_token account env_var token_file
      end
  end.

(** [build(api, version, credentials=get_credentials(account))]: a built
    service is identified with the credentials it carries. *)
Definition get_gmail (account : string) : M Credentials := get_credentials account.
Definition get_calendar (account : string) : M Credentials := get_credentials account.

End CredentialManager.

(** ** Python's dynamic operations on decoded JSON *)

(** Truthiness: [None], [False], [0], the empty string, list and dict are false. *)
Definition json_truthy (v : json) : bool :=
  match v with
  | JNull => false
  | JBool b => b
  | JNum n => negb (Z.eqb n 0)
  | JStr s => truthy_str s
  | JArr l => match l with [] => false | _ => true end
  | JObj d => match d with [] => false | _ => true end
  end.

Definition obind {A B} (o : outcome A) (k : A -> outcome B) : outcome B :=
  match o with
  | Return a => k a
  | Raise e => Raise e
  end.
Notation "x <~ o ;; k" := (obind o (fun x => k))
  (at level 100, o at next level, right associativity) : py_scope.

(** [v.get(k, default)]: only a [dict] has [get]. *)
Definition py_get (v : json) (k : string) (default : json) : outcome json :=
  match v with
  | JObj d => Return (match dict_get d k with Some x => x | None => default end)
  | _ => Raise AttributeError
  end.

(** [v[k]] with a [str] key. *)
Definition py_index (v : json) (k : string) : outcome json :=
  match v with
  | JObj d => match dict_get d k with Some x => Return x | None => Raise (KeyError k) end
  | _ => Raise TypeError
  end.

(** [d[k] = v] on a [dict]: an existing key keeps its place. *)
Fixpoint dict_set {V} (d : list (string * V)) (k : string) (v : V) : list (string * V) :=
  match d with
  | [] => [(k, v)]
  | (k', v') :: d' =>
      if String.eqb k' k then (k, v) :: d' else (k', v') :: dict_set d' k v
  end.

(** [v[k] = x] *)
Definition py_setitem (v : json) (k : string) (x : json) : outcome json :=
  match v with
  | JObj d => Return (JObj (dict_set d k x))
  | _ => Raise TypeError
  end.

Definition chars (s : string) : list json :=
  map (fun c => JStr (String c EmptyString)) (list_ascii_of_string s).

(** [for x in v]: a list yields its items, a dict its keys, a str its characters. *)
Definition py_iter (v : json) : outcome (list json) :=
  match v with
  | JArr l => Return l
  | JObj d => Return (map (fun kv => JStr (fst kv)) d)
  | JStr s => Return (chars s)
  | _ => Raise TypeError
  end.

Fixpoint omap {A B} (f : A -> outcome B) (l : list A) : outcome (list B) :=
  match l with
  | [] => Return []
  | x :: l' => y <~ f x ;; ys <~ omap f l' ;; Return (y :: ys)
  end.

Fixpoint for_each {A B} (f : A -> M B) (l : list A) : M (list B) :=
  match l with
  | [] => ret []
  | x :: l' => y <- f x ;; ys <- for_each f l' ;; ret (y :: ys)
  end.

Definition is_str (v : json) (s : string) : bool :=
  match v with
  | JStr s' => String.eqb s' s
  | _ => false
  end.

(** [{h["name"]: h["value"] for h in hs}], kept as the pairs in iteration
    order; a list or dict is not hashable and cannot be a key. *)
Definition header_pair (h : json) : outcome (json * json) :=
  name <~ py_index h "name" ;;
  value <~ py_index h "value" ;;
  match name with
  | JArr _ | JObj _ => Raise TypeError
  | _ => Return (name, value)
  end.

(** [headers.get(name, default)]: the last pair written under [name] wins. *)
Fixpoint headers_get (headers : list (json * json)) (name : string) (default : json) : json :=
  match headers with
  | [] => default
  | (k, v) :: rest => headers_get rest name (if is_str k name then v else default)
  end.

(** [body[:n]] *)
Definition slice_to (n : nat) (s : string) : string := substring 0 n s.

Section Tools.
Context {ext : Externals}.

Definition call (creds : Credentials) (r : Request) : M json :=
  emit (ServiceCall creds r) ;;;
  lift (execute creds r).

Definition headers_of (payload : json) : outcome (list (json * json)) :=
  hs <~ py_get payload "headers" (JArr []) ;;
  items <~ py_iter hs ;;
  omap header_pair items.

(** *** gmail_search *)

(** Lines 88-95: the summary of one message, given its metadata. *)
Definition search_output (msg detail : json) : outcome json :=
  payload <~ py_get detail "payload" (JObj []) ;;
  headers <~ headers_of payload ;;
  id <~ py_index msg "id" ;;
  threadId <~ py_index msg "threadId" ;;
  snippet <~ py_get detail "snippet" (JStr "") ;;
  Return (JObj [ ("id", id);
                 ("threadId", threadId);
                 ("from", headers_get headers "From" (JStr ""));
                 ("subject", headers_get headers "Subject" (JStr ""));
                 ("date", headers_get headers "Date" (JStr ""));
                 ("snippet", snippet) ]).

(** Lines 86-95: one turn of the loop. *)
Definition search_entry (gmail : Credentials) (msg : json) : M json :=
  id <- lift (py_index msg "id") ;;
  detail <- call gmail (MessagesGetMetadata id) ;;
  lift (search_output msg detail).

Definition gmail_search (query : string) (max_results : Z) (account : string)
  : M string :=
  gmail <- get_gmail account ;;
  results <- call gmail (MessagesList query max_results) ;;
  messages <- lift (py_get results "messages" (JArr [])) ;;
  if negb (json_truthy messages) then ret "No messages found."
  else
    items <- lift (py_iter messages) ;;
    output <- for_each (search_entry gmail) items ;;
    ret (json_dumps 2 (JArr output)).

(** *** gmail_read_thread *)

Definition decode (data : json) : outcome string :=
  match data with
  | JStr s => urlsafe_b64decode_utf8 s
  | _ => Raise TypeError
  end.

(** Lines 117-121: the loop over [payload["parts"]]. *)
Fixpoint scan_parts (parts : list json) : outcome string :=
  match parts with
  | [] => Return ""
  | part :: rest =>
      mime <~ py_get part "mimeType" JNull ;;
      if is_str mime "text/plain" then
        b <~ py_get part "body" (JObj []) ;;
        data <~ py_get b "data" JNull ;;
        if json_truthy data then decode data else scan_parts rest
      else scan_parts rest
  end.

(** Line 113: ["body" in payload and payload["body"].get("data")]. *)
Definition direct_data (payload : list (string * json)) : outcome json :=
  match dict_get payload "body" with
  | Some b => py_get b "data" JNull
  | None => Return (JBool false)
  end.

(** Lines 111-121, for a [payload] that is a dict. *)
Definition extract_body (payload : list (string * json)) : outcome string :=
  direct <~ direct_data payload ;;
  if json_truthy direct then decode direct
  else
    match dict_get payload "parts" with
    | Some ps => parts <~ py_iter ps ;; scan_parts parts
    | None => Return ""
    end.

(** Lines 108-130: one turn of the loop. *)
Definition thread_entry (msg : json) : outcome json :=
  payload <~ py_get msg "payload" (JObj []) ;;
  headers <~ headers_of payload ;;
  match payload with
  | JObj pd =>
      body <~ extract_body pd ;;
      id <~ py_index msg "id" ;;
      Return (JObj [ ("id", id);
                     ("from", headers_get headers "From" (JStr ""));
                     ("to", headers_get headers "To" (JStr ""));
                     ("subject", headers_get headers "Subject" (JStr ""));
                     ("date", headers_get headers "Date" (JStr ""));
                     ("body", JStr (slice_to 5000 body)) ])
  | _ => Raise AttributeError
  end.

Definition gmail_read_thread (thread_id account : string) : M string :=
  gmail <- get_gmail account ;;
  thread <- call gmail (ThreadsGetFull thread_id) ;;
  msgs <- lift (py_get thread "messages" (JArr [])) ;;
  items <- lift (py_iter msgs) ;;
  messages <- lift (omap thread_entry items) ;;
  ret (json_dumps 2 (JArr messages)).

(** *** calendar_create_event and calendar_update_event *)

(** [{"date": v, "timeZone": tz} if is_all_day else {"dateTime": v, "timeZone": tz}] *)
Definition time_field (is_all_day : bool) (v timezone : string) : json :=
  if is_all_day then JObj [("date", JStr v); ("timeZone", JStr timezone)]
  else JObj [("dateTime", JStr v); ("timeZone", JStr timezone)].

(** Lines 219-230. *)
Definition create_event_body (summary start end_ : string)
    (description location : option string) (timezone : string) : list (string * json) :=
  let is_all_day := Nat.eqb (String.length start) 10 in
  let event := [ ("summary", JStr summary);
                 ("start", time_field is_all_day start timezone);
                 ("end", time_field is_all_day end_ timezone) ] in
  let event :=
    match description with
    | Some d => if truthy_str d then dict_set event "description" (JStr d) else event
    | None => event
    end in
  match location with
  | Some l => if truthy_str l then dict_set event "location" (JStr l) else event
  | None => event
  end.

Definition calendar_create_event (summary start end_ calendar_id : string)
    (description location : option string) (timezone account : string) : M string :=
  cal <- get_calendar account ;;
  let event := JObj (create_event_body summary start end_ description location timezone) in
  result <- call cal (EventsInsert calendar_id event) ;;
  id <- lift (py_index result "id") ;;
  link <- lift (py_get result "htmlLink" (JStr "")) ;;
  ret (json_dumps 2 (JObj [("id", id); ("htmlLink", link)])).

(** Lines 254-265, on the event the service returned. *)
Definition update_event_body (event : json)
    (summary start end_ description location : option string) (timezone : string)
  : outcome json :=
  event <~ match summary with
           | Some s =>
               if truthy_str s then py_setitem event "summary" (JStr s)
               else Return event
           | None => Return event
           end ;;
  event <~ match description with
           | Some d => py_setitem event "description" (JStr d)
           | None => Return event
           end ;;
  event <~ match location with
           | Some l => py_setitem event "location" (JStr l)
           | None => Return event
           end ;;
  event <~ match start with
           | Some s =>
               if truthy_str s
               then py_setitem event "start"
                      (time_field (Nat.eqb (String.length s) 10) s timezone)
               else Return event
           | None => Return event
           end ;;
  match end_ with
  | Some e =>
      if truthy_str e
      then py_setitem event "end"
             (time_field (Nat.eqb (String.length e) 10) e timezone)
      else Return event
  | None => Return event
  end.

Definition calendar_update_event (event_id calendar_id : string)
    (summary start end_ description location : option string)
    (timezone account : string) : M string :=
  cal <- get_calendar account ;;
  event <- call cal (EventsGet calendar_id event_id) ;;
  event <- lift (update_event_body event summary start end_ description location timezone) ;;
  result <- call cal (EventsUpdate calendar_id event_id event) ;;
  id <- lift (py_index result "id") ;;
  updated <- lift (py_get result "updated" (JStr "")) ;;
  ret (json_dumps 2 (JObj [("id", id); ("updated", updated)])).

End Tools.

(** ** Vocabulary of the statements *)

(** The value an argument of [calendar_update_event] writes, if any: a
    text argument tested with [if x:] and one tested with [is not None]. *)
Definition if_truthy (f : string -> json) (o : option string) : option json :=
  match o with
  | Some s => if truthy_str s then Some (f s) else None
  | None => None
  end.

Definition set_if (o : option json) (k : string) (d : list (string * json))
  : list (string * json) :=
  match o with
  | Some v => dict_set d k v
  | None => d
  end.

Definition stamp (timezone s : string) : json :=
  time_field (Nat.eqb (String.length s) 10) s timezone.

(** The [data] of a message part, [None] when the part has none. *)
Definition part_data (part : json) : json :=
  match part with
  | JObj d =>
      match dict_get d "body" with
      | Some (JObj b) => match dict_get b "data" with Some x => x | None => JNull end
      | _ => JNull
      end
  | _ => JNull
  end.

Definition part_mime (part : json) : json :=
  match part with
  | JObj d => match dict_get d "mimeType" with Some x => x | None => JNull end
  | _ => JNull
  end.

(** A part whose MIME type is [text/plain]. *)
Definition is_plain_text (part : json) : bool := is_str (part_mime part) "text/plain".

(** A part the loop of [gmail_read_thread] stops at. *)
Definition usable_part (part : json) : bool :=
  is_plain_text part && json_truthy (part_data part).

(** A part shaped as the Gmail API shapes it: a dict whose [body], when
    present, is a dict. *)
Definition well_formed_part (part : json) : Prop :=
  exists d, part = JObj d /\
    (dict_get d "body" = None \/ exists b, dict_get d "body" = Some (JObj b)).

Ltac other_key :=
  repeat match goal with
  | |- context [String.eqb ?a ?b] =>
      first [ change (String.eqb a b) with false
            | change (String.eqb a b) with true
            | replace (String.eqb a b) with false
                by (symmetry; apply String.eqb_neq; congruence) ]
  end.


(** ** Sample collaborators and worlds

    A concrete [Externals] on which the definitions above can be run. *)

Definition tok_dead : Credentials := mkCredentials (Some "a") None true.
Definition tok_stale : Credentials := mkCredentials (Some "b") (Some "r") true.
Definition tok_revoked : Credentials := mkCredentials (Some "c") (Some "gone") true.
Definition tok_live : Credentials := mkCredentials (Some "v") (Some "r") false.
Definition tok_fresh : Credentials := mkCredentials (Some "fresh") (Some "r") false.
Definition tok_granted : Credentials := mkCredentials (Some "granted") (Some "r2") false.

Definition sample_info (s : string) : outcome Credentials :=
  if String.eqb s "A" then Return tok_dead
  else if String.eqb s "B" then Return tok_stale
  else if String.eqb s "C" then Return tok_revoked
  else if String.eqb s "V" then Return tok_live
  else Raise (ValueError "not a token").

Definition sample_refresh (c : Credentials) : outcome Credentials :=
  match refresh_token c with
  | Some r => if String.eqb r "r" then Return tok_fresh
              else Raise (LibraryError "RefreshError")
  | None => Raise (LibraryError "RefreshError")
  end.

Definition sample_to_json (c : Credentials) : string :=
  match token c with Some t => t | None => "" end.

Fixpoint sample_dumps (v : json) : string :=
  match v with
  | JNull => "null"
  | JBool b => if b then "true" else "false"
  | JNum _ => "0"
  | JStr s => s
  | JArr l =>
      String.append "[" (fold_right (fun x acc => String.append (sample_dumps x) acc) "]" l)
  | JObj d =>
      String.append "{"
        (fold_right (fun kv acc => String.append (fst kv) (String.append (sample_dumps (snd kv)) acc))
                    "}" d)
  end.

Definition sample_message (id : string) : json :=
  JObj [("id", JStr id); ("threadId", JStr (String.append "t" id))].

Definition sample_entry (id : string) : json :=
  JObj [ ("id", JStr id);
         ("threadId", JStr (String.append "t" id));
         ("from", JStr "ann@example.com");
         ("subject", JStr "hello");
         ("date", JStr "");
         ("snippet", JStr "hi there") ].

Definition sample_detail : json :=
  JObj [ ("payload", JObj [("headers",
            JArr [ JObj [("name", JStr "From"); ("value", JStr "ann@example.com")];
                   JObj [("name", JStr "Subject"); ("value", JStr "hello")] ])]);
         ("snippet", JStr "hi there") ].

Definition sample_execute (c : Credentials) (r : Request) : outcome json :=
  match r with
  | MessagesList q _ =>
      if String.eqb q "nothing" then Return (JObj [("resultSizeEstimate", JNum 0)])
      else Return (JObj [("messages", JArr [sample_message "m1"; sample_message "m2"])])
  | MessagesGetMetadata _ => Return sample_detail
  | ThreadsGetFull _ => Return (JObj [])
  | EventsGet _ _ => Return (JObj [("id", JStr "e1"); ("location", JStr "A")])
  | EventsInsert _ _ => Return (JObj [("id", JStr "e2")])
  | EventsUpdate _ _ _ => Return (JObj [("id", JStr "e1")])
  end.

Definition sample : Externals := {|
  from_authorized_user_info := fun s _ => sample_info s;
  refresh := sample_refresh;
  run_local_server := fun _ _ => Return tok_granted;
  to_json := sample_to_json;
  execute := sample_execute;
  json_dumps := fun _ => sample_dumps;
  urlsafe_b64decode_utf8 := fun s => Return s
|}.

(** A multipart payload whose first [text/plain] part is an attachment
    without inline data; the text comes second. *)
Definition attachment_part : json :=
  JObj [ ("mimeType", JStr "text/plain");
         ("filename", JStr "notes.txt");
         ("body", JObj [("attachmentId", JStr "att1"); ("size", JNum 12)]) ].

Definition text_part : json :=
  JObj [ ("mimeType", JStr "text/plain");
         ("body", JObj [("size", JNum 2); ("data", JStr "aGk")]) ].

Definition mixed_payload : list (string * json) :=
  [ ("mimeType", JStr "multipart/mixed");
    ("body", JObj [("size", JNum 0)]);
    ("parts", JArr [attachment_part; text_part]) ].

(** A text of [n] characters. *)
Definition filler (n : nat) : string := string_of_list_ascii (repeat "x"%char n).

(** The deployed world: the variable of [personal] holds token [A], and a
    token file with another token lies next to it. *)
Definition deployed_world : World :=
  mkWorld {[ "GOOGLE_TOKEN_PERSONAL" := "A" ]} {[ "token_personal.json" := "V" ]} [].

(** Local worlds: no variable, a token file, and the client secrets. *)
Definition local_world (tok : string) : World :=
  mkWorld ∅ {[ "token_personal.json" := tok; "credentials.json" := "secrets" ]} [].

(** A world whose variable for [personal] is set to the empty string. *)
Definition empty_var_world : World :=
  mkWorld {[ "GOOGLE_TOKEN_PERSONAL" := "" ]}
          {[ "token_personal.json" := "A"; "credentials.json" := "secrets" ]} [].

(** ** The remaining tools

    [gmail_get_profile], [calendar_list], [calendar_list_events] and
    [calendar_delete_event] send requests of their own.  A [Session] is a
    world together with the log of those requests. *)

Inductive RestRequest : Type :=
  | GetProfile
  | CalendarListList
  | EventsList (kwargs : list (string * json))
  | EventsDelete (calendar_id event_id : string).

Class RestExternals : Type := {
  (** [request.execute()] for the requests above *)
  execute_rest : Credentials -> RestRequest -> outcome json;
  (** [json.dumps(_)] without [indent] *)
  json_dumps_compact : json -> string
}.

Record Session : Type := mkSession {
  world : World;
  sent : list (Credentials * RestRequest)
}.

Definition N (A : Type) : Type := Session -> outcome A * Session.

Definition retN {A} (a : A) : N A := fun s => (Return a, s).
Definition bindN {A B} (m : N A) (k : A -> N B) : N B :=
  fun s =>
    match m s with
    | (Return a, s') => k a s'
    | (Raise e, s') => (Raise e, s')
    end.
Definition liftN {A} (o : outcome A) : N A := fun s => (o, s).

(** A computation on the world, run inside a session. *)
Definition run {A} (m : M A) : N A :=
  fun s => let (o, w) := m (world s) in (o, mkSession w (sent s)).

Notation "x <-- m ;; k" := (bindN m (fun x => k))
  (at level 100, m at next level, right associativity) : py_scope.

(** [v[:n]] on any value: a [str] and a [list] can be sliced; the other
    values raise ([TypeError]; for a dict, [KeyError] from Python 3.12 on). *)
Definition py_slice_to (n : nat) (v : json) : outcome json :=
  match v with
  | JStr s => Return (JStr (slice_to n s))
  | JArr l => Return (JArr (firstn n l))
  | _ => Raise TypeError
  end.

Section RestTools.
Context {ext : Externals} {rest : RestExternals}.

Definition call_rest (creds : Credentials) (r : RestRequest) : N json :=
  fun s => (execute_rest creds r, mkSession (world s) (sent s ++ [(creds, r)])).

Definition gmail_get_profile (account : string) : N string :=
  gmail <-- run (get_gmail account) ;;
  profile <-- call_rest gmail GetProfile ;;
  retN (json_dumps 2 profile).

(** Lines 153-158: one calendar of the list. *)
Definition calendar_entry (c : json) : outcome json :=
  id <~ py_index c "id" ;;
  summary <~ py_get c "summary" (JStr "") ;;
  accessRole <~ py_get c "accessRole" (JStr "") ;;
  primary <~ py_get c "primary" (JBool false) ;;
  Return (JObj [ ("id", id);
                 ("summary", summary);
                 ("accessRole", accessRole);
                 ("primary", primary) ]).

Definition calendar_list (account : string) : N string :=
  cal <-- run (get_calendar account) ;;
  results <-- call_rest cal CalendarListList ;;
  calendars <-- liftN (py_get results "items" (JArr [])) ;;
  items <-- liftN (py_iter calendars) ;;
  output <-- liftN (omap calendar_entry items) ;;
  retN (json_dumps 2 (JArr output)).

(** Lines 175-186: the arguments of [events().list]. *)
Definition list_events_kwargs (calendar_id : string) (time_min time_max : option string)
    (max_results : Z) (query : option string) : list (string * json) :=
  let kwargs := [ ("calendarId", JStr calendar_id);
                  ("maxResults", JNum max_results);
                  ("singleEvents", JBool true);
                  ("orderBy", JStr "startTime") ] in
  let kwargs :=
    match time_min with
    | Some t => if truthy_str t then dict_set kwargs "timeMin" (JStr t) else kwargs
    | None => kwargs
    end in
  let kwargs :=
    match time_max with
    | Some t => if truthy_str t then dict_set kwargs "timeMax" (JStr t) else kwargs
    | None => kwargs
    end in
  match query with
  | Some q => if truthy_str q then dict_set kwargs "q" (JStr q) else kwargs
  | None => kwargs
  end.

(** [e.get(key, {}).get("dateTime") or e.get(key, {}).get("date")] *)
Definition event_time (e : json) (key : string) : outcome json :=
  t <~ py_get e key (JObj []) ;;
  date_time <~ py_get t "dateTime" JNull ;;
  if json_truthy date_time then Return date_time
  else py_get t "date" JNull.

(** [e.get("description", "")[:500] if e.get("description") else ""] *)
Definition event_description (e : json) : outcome json :=
  d <~ py_get e "description" JNull ;;
  if json_truthy d then py_slice_to 500 d else Return (JStr "").

(** Lines 193-200: one event of the list. *)
Definition event_entry (e : json) : outcome json :=
  id <~ py_index e "id" ;;
  summary <~ py_get e "summary" (JStr "(No title)") ;;
  start <~ event_time e "start" ;;
  end_ <~ event_time e "end" ;;
  location <~ py_get e "location" (JStr "") ;;
  description <~ event_description e ;;
  Return (JObj [ ("id", id);
                 ("summary", summary);
                 ("start", start);
                 ("end", end_);
                 ("location", location);
                 ("description", description) ]).

Definition calendar_list_events (calendar_id : string) (time_min time_max : option string)
    (max_results : Z) (query : option string) (account : string) : N string :=
  cal <-- run (get_calendar account) ;;
  let kwargs := list_events_kwargs calendar_id time_min time_max max_results query in
  results <-- call_rest cal (EventsList kwargs) ;;
  events <-- liftN (py_get results "items" (JArr [])) ;;
  items <-- liftN (py_iter events) ;;
  output <-- liftN (omap event_entry items) ;;
  retN (json_dumps 2 (JArr output)).

Definition calendar_delete_event (event_id calendar_id account : string) : N string :=
  cal <-- run (get_calendar account) ;;
  _ <-- call_rest cal (EventsDelete calendar_id event_id) ;;
  retN (json_dumps_compact (JObj [("deleted", JBool true); ("event_id", JStr event_id)])).

End RestTools.

(** ** Start-up (the [__main__] block)

    The block reads and extends the environment, prints one line and
    hands over to [mcp.run], which serves until the process ends. *)

Inductive MainEvent : Type :=
  | Stdout (line : string)
  | McpRun (transport : option string).

(** [os.environ.get(k, default)] *)
Definition environ_get_default (env : gmap string string) (k default : string) : string :=
  match env !! k with
  | Some v => v
  | None => default
  end.

(** [os.environ.setdefault(k, v)] *)
Definition environ_setdefault (env : gmap string string) (k v : string)
  : gmap string string :=
  match env !! k with
  | Some _ => env
  | None => <[k := v]> env
  end.

Definition main (env : gmap string string) : gmap string string * list MainEvent :=
  let transport := environ_get_default env "MCP_TRANSPORT" "stdio" in
  if String.eqb transport "sse" then
    let port := environ_get_default env "PORT" "8000" in
    (environ_setdefault env "HOST" "0.0.0.0",
     [ Stdout (String.append "Starting MCP server on 0.0.0.0:" port);
       McpRun (Some "sse") ])
  else (env, [McpRun None]).

(** ** Vocabulary of the further statements *)

(** The second world agrees with the first on the environment and on every
    file but [path], and its trace continues the first one's. *)
Definition extends_but (path : option string) (w w' : World) : Prop :=
  environ w' = environ w /\
  (forall p, path <> Some p -> files w' !! p = files w !! p) /\
  exists t, trace w' = trace w ++ t.

(** A computation that, from every world, ends in a world related to it
    by [extends_but path]. *)
Definition keeps {A} (path : option string) (m : M A) : Prop :=
  forall w, extends_but path w (snd (m w)).

(** One successful turn of the loop of [gmail_search]: the message, its
    id, the metadata the service returns for it and the entry made of both. *)
Record search_row : Type := mkRow {
  row_msg : json;
  row_id : json;
  row_detail : json;
  row_out : json
}.

Definition row_ok {ext : Externals} (c : Credentials) (r : search_row) : Prop :=
  py_index (row_msg r) "id" = Return (row_id r) /\
  execute c (MessagesGetMetadata (row_id r)) = Return (row_detail r) /\
  search_output (row_msg r) (row_detail r) = Return (row_out r).

Definition sample_row (id : string) : search_row :=
  mkRow (sample_message id) (JStr id) sample_detail (sample_entry id).

(** A header as the Gmail API lists it. *)
Definition header (name : string) (value : json) : json :=
  JObj [("name", JStr name); ("value", value)].

Definition sample_rest_execute (c : Credentials) (r : RestRequest) : outcome json :=
  match r with
  | GetProfile => Return (JObj [("emailAddress", JStr "ann@example.com")])
  | CalendarListList =>
      Return (JObj [("items", JArr [JObj [("id", JStr "primary"); ("primary", JBool true)]])])
  | EventsList _ => Return (JObj [])
  | EventsDelete _ event_id =>
      if String.eqb event_id "gone" then Raise (LibraryError "HttpError 410")
      else Return (JStr "")
  end.

Definition sample_rest : RestExternals := {|
  execute_rest := sample_rest_execute;
  json_dumps_compact := sample_dumps
|}.

Definition fresh_session (w : World) : Session := mkSession w [].

(** A local world without any token file. *)
Definition bare_world : World :=
  mkWorld ∅ {[ "credentials.json" := "secrets" ]} [].

(** A local world without token file and without client secrets. *)
Definition empty_world : World := mkWorld ∅ ∅ [].

(** A deployed world whose variable holds a text that is no token. *)
Definition garbled_world : World :=
  mkWorld {[ "GOOGLE_TOKEN_PERSONAL" := "oops" ]} {[ "token_personal.json" := "V" ]} [].

(** The world a load leaves behind in a local context: the variable was
    read and the token file tested and, when [read] is set, read. *)
Definition after_load (w : World) (read : bool) : World :=
  mkWorld (environ w) (files w)
    (trace w ++ [EnvRead "GOOGLE_TOKEN_PERSONAL"; FileExists "token_personal.json"]
             ++ (if read then [FileRead "token_personal.json"] else [])).

(** Externals whose message list has an entry without [id] in the middle. *)
Definition broken_execute (c : Credentials) (r : Request) : outcome json :=
  match r with
  | MessagesList _ _ =>
      Return (JObj [("messages", JArr [sample_message "m1"; JObj [("threadId", JStr "t9")];
                                       sample_message "m2"])])
  | _ => sample_execute c r
  end.

Definition broken : Externals := {|
  from_authorized_user_info := fun s _ => sample_info s;
  refresh := sample_refresh;
  run_local_server := fun _ _ => Return tok_granted;
  to_json := sample_to_json;
  execute := broken_execute;
  json_dumps := fun _ => sample_dumps;
  urlsafe_b64decode_utf8 := fun s => Return s
|}.

(** Events as the Calendar API lists them: a timed one that also carries
    a date, and one with a long description and no times. *)
Definition sample_event : list (string * json) :=
  [ ("id", JStr "e1");
    ("start", JObj [("date", JStr "2025-01-20"); ("dateTime", JStr "2025-01-20T10:00:00Z")]);
    ("end", JObj [("date", JStr "2025-01-21")]) ].

Definition long_event : list (string * json) :=
  [ ("id", JStr "e2"); ("summary", JStr "Review"); ("description", JStr (filler 600)) ].

(** Externals whose interactive grant is declined. *)
Definition declined : Externals := {|
  from_authorized_user_info := fun s _ => sample_info s;
  refresh := sample_refresh;
  run_local_server := fun _ _ => Raise (LibraryError "AccessDenied");
  to_json := sample_to_json;
  execute := sample_execute;
  json_dumps := fun _ => sample_dumps;
  urlsafe_b64decode_utf8 := fun s => Return s
|}.



(** * Properties *)

(** ** Account tables *)

Lemma env_var_truthy (account v : string) :
  dict_get ENV_TOKENS account = Some v -> truthy (Some v) = true.
Proof.
  unfold ENV_TOKENS; cbn [dict_get].
  repeat (destruct (String.eqb _ account); [intros [= <-]; reflexivity|]).
  discriminate.
Qed.

Lemma known_account_has_env_var (account token_file : string) :
  dict_get ACCOUNTS account = Some token_file ->
  exists v, dict_get ENV_TOKENS account = Some v.
Proof.
  unfold ACCOUNTS, ENV_TOKENS; cbn [dict_get].
  repeat (destruct (String.eqb _ account); [eauto|]).
  discriminate.
Qed.

Lemma truthy_str_true (s : string) : s <> "" -> truthy_str s = true.
Proof.
  intros Hs. unfold truthy_str. destruct (String.eqb_spec s ""); [contradiction|reflexivity].
Qed.

Lemma log_log (w : World) (e1 e2 : Event) :
  log e2 (log e1 w) = mkWorld (environ w) (files w) (trace w ++ [e1; e2]).
Proof. unfold log; simpl. now rewrite <- app_assoc. Qed.

Section CredentialFacts.
Context {ext : Externals}.

(** What [load] does when the environment variable holds a non-empty value. *)
Lemma load_env (v token_file a : string) (w : World) :
  truthy (Some v) = true ->
  environ w !! v = Some a ->
  a <> "" ->
  load (Some v) token_file w =
    (c <~ from_authorized_user_info a SCOPES ;; Return (Some c),
     mkWorld (environ w) (files w) (trace w ++ [EnvRead v; EnvRead v])).
Proof.
  intros Hv Ha Hne.
  unfold load. rewrite Hv. unfold bind, environ_get, environ_index, lift; simpl.
  rewrite Ha; simpl. rewrite (truthy_str_true a Hne); simpl. rewrite Ha.
  rewrite log_log.
  destruct (from_authorized_user_info a SCOPES); reflexivity.
Qed.

End CredentialFacts.

Section CredentialTheorems.
Context {ext : Externals}.

(** C4. An account name outside [ACCOUNTS] makes [get_credentials] raise
    the unknown-account [ValueError] and leaves the world as it was: the
    trace gains no event, so no environment variable was read, no file was
    read or written and no network call was made. *)
Theorem get_credentials_unknown_account (account : string) (w : World) :
  dict_get ACCOUNTS account = None ->
  get_credentials account w = (Raise (ValueError (unknown_account_msg account)), w).
Proof.
  intros Hacc. unfold get_credentials. rewrite Hacc. reflexivity.
Qed.

(** C2. For a known account whose environment variable holds a non-empty
    value [a], loading parses [a] and returns the result, whatever the token
    file holds: the only events are the two reads of the variable, so the
    file is neither tested for existence nor read. *)
Theorem load_prefers_environment (account token_file v a : string) (w : World) :
  dict_get ACCOUNTS account = Some token_file ->
  dict_get ENV_TOKENS account = Some v ->
  environ w !! v = Some a ->
  a <> "" ->
  load (dict_get ENV_TOKENS account) token_file w =
    (c <~ from_authorized_user_info a SCOPES ;; Return (Some c),
     mkWorld (environ w) (files w) (trace w ++ [EnvRead v; EnvRead v])).
Proof.
  intros _ Hv Ha Hne. rewrite Hv.
  apply load_env; eauto using env_var_truthy.
Qed.

(** C1. For a known account whose environment variable is set (to a
    non-empty value, which is how the code and the specification's design
    note read "set") and whose token is not valid and not refreshable,
    [get_credentials] raises the deployed-environment [RuntimeError].  The
    only events are three reads of the variable: nothing is printed, the
    client secrets are not read, the interactive flow is not started and no
    file is tested, read or written, whatever the token file holds. *)
Theorem get_credentials_deployed_guard
    (account token_file v a : string) (c : Credentials) (w : World) :
  dict_get ACCOUNTS account = Some token_file ->
  dict_get ENV_TOKENS account = Some v ->
  environ w !! v = Some a ->
  a <> "" ->
  from_authorized_user_info a SCOPES = Return c ->
  valid c = false ->
  expired c && truthy (refresh_token c) = false ->
  get_credentials account w =
    (Raise (RuntimeError (deployed_msg account)),
     mkWorld (environ w) (files w) (trace w ++ [EnvRead v; EnvRead v; EnvRead v])).
Proof.
  intros Hacc Hv Ha Hne Hc Hinv Hnr.
  unfold get_credentials. rewrite Hacc.
  cbv zeta. unfold bind at 1.
  rewrite Hv at 1.
  rewrite (load_env v token_file a w (env_var_truthy _ _ Hv) Ha Hne).
  rewrite Hc. cbn [obind]. rewrite Hinv, Hnr. cbn [negb].
  rewrite Hv. unfold no_usable_token, bind, environ_get, log; cbn.
  rewrite Ha. cbn [truthy]. rewrite (truthy_str_true a Hne).
  unfold raise. now rewrite <- app_assoc.
Qed.

(** C3, as the code has it.  For a known account whose loaded token is
    expired and carries a refresh token, [get_credentials] attempts the
    refresh and ends there: it returns the refreshed credential when the
    refresh succeeds and raises the refresh error when it fails, and the
    refresh attempt is the only event after loading. *)
Theorem get_credentials_refresh
    (account token_file : string) (c : Credentials) (w w1 : World) :
  dict_get ACCOUNTS account = Some token_file ->
  load (dict_get ENV_TOKENS account) token_file w = (Return (Some c), w1) ->
  expired c = true ->
  truthy (refresh_token c) = true ->
  get_credentials account w = (refresh c, log (Refresh c) w1).
Proof.
  intros Hacc Hload Hexp Hrt.
  unfold get_credentials. rewrite Hacc.
  cbv zeta. unfold bind at 1. rewrite Hload.
  unfold valid. rewrite Hexp, Hrt.
  destruct (token c); cbn; destruct (refresh c); reflexivity.
Qed.

End CredentialTheorems.

(** ** The credential theorems on the sample worlds *)

Lemma get_credentials_unknown_account_witness :
  get_credentials (ext := sample) "home" deployed_world
  = (Raise (ValueError (unknown_account_msg "home")), deployed_world).
Proof.
  apply (get_credentials_unknown_account (ext := sample) "home" deployed_world).
  reflexivity.
Defined.

Lemma load_prefers_environment_witness :
  files deployed_world !! "token_personal.json" = Some "V" /\
  load (ext := sample) (dict_get ENV_TOKENS "personal") "token_personal.json" deployed_world
  = (Return (Some tok_dead),
     mkWorld (environ deployed_world) (files deployed_world)
       [EnvRead "GOOGLE_TOKEN_PERSONAL"; EnvRead "GOOGLE_TOKEN_PERSONAL"]).
Proof.
  split; [reflexivity|].
  apply (load_prefers_environment (ext := sample)
           "personal" "token_personal.json" "GOOGLE_TOKEN_PERSONAL" "A" deployed_world).
  - reflexivity.
  - reflexivity.
  - vm_compute; reflexivity.
  - discriminate.
Defined.

Lemma get_credentials_deployed_guard_witness :
  get_credentials (ext := sample) "personal" deployed_world
  = (Raise (RuntimeError (deployed_msg "personal")),
     mkWorld (environ deployed_world) (files deployed_world)
       [EnvRead "GOOGLE_TOKEN_PERSONAL"; EnvRead "GOOGLE_TOKEN_PERSONAL";
        EnvRead "GOOGLE_TOKEN_PERSONAL"]).
Proof.
  apply (get_credentials_deployed_guard (ext := sample)
           "personal" "token_personal.json" "GOOGLE_TOKEN_PERSONAL" "A" tok_dead
           deployed_world).
  - reflexivity.
  - reflexivity.
  - vm_compute; reflexivity.
  - discriminate.
  - reflexivity.
  - reflexivity.
  - reflexivity.
Defined.

Lemma get_credentials_refresh_witness :
  get_credentials (ext := sample) "personal" (local_world "B")
  = (Return tok_fresh,
     log (Refresh tok_stale)
       (mkWorld ∅ (files (local_world "B"))
          [EnvRead "GOOGLE_TOKEN_PERSONAL"; FileExists "token_personal.json";
           FileRead "token_personal.json"])).
Proof.
  apply (get_credentials_refresh (ext := sample)
           "personal" "token_personal.json" tok_stale (local_world "B")).
  - reflexivity.
  - vm_compute; reflexivity.
  - reflexivity.
  - reflexivity.
Defined.

(** C3 as worded fails on both of its outcomes.  With the stale token [B]
    in the file the refresh succeeds and the credential is returned, but
    nothing is written: the token file still holds [B].  With the revoked
    token [C] the refresh fails and its error is what [get_credentials]
    raises: it is not the deployed error, and no interactive flow starts. *)
Lemma get_credentials_refresh_counterexample :
  (let r := get_credentials (ext := sample) "personal" (local_world "B") in
   fst r = Return tok_fresh /\
   files (snd r) !! "token_personal.json" = Some "B" /\
   to_json (Externals := sample) tok_fresh <> "B" /\
   trace (snd r) = [EnvRead "GOOGLE_TOKEN_PERSONAL"; FileExists "token_personal.json";
                    FileRead "token_personal.json"; Refresh tok_stale]) /\
  (let r := get_credentials (ext := sample) "personal" (local_world "C") in
   refresh (Externals := sample) tok_revoked = Raise (LibraryError "RefreshError") /\
   fst r = Raise (LibraryError "RefreshError") /\
   fst r <> Raise (RuntimeError (deployed_msg "personal")) /\
   ~ In Authorize (trace (snd r)) /\
   trace (snd r) = [EnvRead "GOOGLE_TOKEN_PERSONAL"; FileExists "token_personal.json";
                    FileRead "token_personal.json"; Refresh tok_revoked]).
Proof.
  split; cbv zeta.
  - repeat split; try (vm_compute; reflexivity). discriminate.
  - repeat split; try (vm_compute; reflexivity); try discriminate.
    vm_compute. intros H. repeat (destruct H as [H|H]; [discriminate H|]). exact H.
Qed.

(** The boundary of "set": a variable set to the empty string counts as
    absent, so the token file is used and the interactive flow may start. *)
Example empty_variable_is_local :
  let r := get_credentials (ext := sample) "personal" empty_var_world in
  fst r = Return tok_granted /\ In Authorize (trace (snd r)).
Proof.
  cbv zeta. split; vm_compute; [reflexivity | intuition].
Qed.

(** ** Dictionaries *)

Lemma dict_get_set {V} (d : list (string * V)) (k k' : string) (v : V) :
  dict_get (dict_set d k v) k' = if String.eqb k k' then Some v else dict_get d k'.
Proof.
  induction d as [|[k0 v0] d IH]; cbn [dict_set dict_get].
  - reflexivity.
  - destruct (String.eqb_spec k0 k) as [->|Hne]; cbn [dict_get].
    + now destruct (String.eqb k k').
    + rewrite IH. destruct (String.eqb_spec k0 k') as [->|Hne'].
      * destruct (String.eqb_spec k k'); [congruence|reflexivity].
      * reflexivity.
Qed.

(** ** Event bodies *)

Lemma dict_get_set_if (o : option json) (k k' : string) (d : list (string * json)) :
  dict_get (set_if o k d) k'
  = match o with
    | Some v => if String.eqb k k' then Some v else dict_get d k'
    | None => dict_get d k'
    end.
Proof. destruct o; cbn [set_if]; [apply dict_get_set|reflexivity]. Qed.

Lemma update_event_body_dict (d : list (string * json))
    (summary start end_ description location : option string) (timezone : string) :
  update_event_body (JObj d) summary start end_ description location timezone
  = Return (JObj
      (set_if (if_truthy (stamp timezone) end_) "end"
        (set_if (if_truthy (stamp timezone) start) "start"
          (set_if (JStr <$> location) "location"
            (set_if (JStr <$> description) "description"
              (set_if (if_truthy JStr summary) "summary" d)))))).
Proof.
  unfold update_event_body, if_truthy, stamp.
  destruct summary as [su|]; [destruct (truthy_str su)|];
  destruct description as [de|]; destruct location as [lo|];
  (destruct start as [st|]; [destruct (truthy_str st)|]);
  (destruct end_ as [en|]; [destruct (truthy_str en)|]);
  reflexivity.
Qed.

(** The fields of an updated dict event, key by key. *)
Lemma update_event_body_fields (d : list (string * json))
    (summary start end_ description location : option string) (timezone : string) :
  exists d',
    update_event_body (JObj d) summary start end_ description location timezone
    = Return (JObj d') /\
    dict_get d' "summary"
    = match if_truthy JStr summary with
      | Some v => Some v
      | None => dict_get d "summary"
      end /\
    dict_get d' "description"
    = match description with
      | Some s => Some (JStr s)
      | None => dict_get d "description"
      end /\
    dict_get d' "location"
    = match location with
      | Some s => Some (JStr s)
      | None => dict_get d "location"
      end /\
    dict_get d' "start"
    = match if_truthy (stamp timezone) start with
      | Some v => Some v
      | None => dict_get d "start"
      end /\
    dict_get d' "end"
    = match if_truthy (stamp timezone) end_ with
      | Some v => Some v
      | None => dict_get d "end"
      end /\
    (forall k, k <> "summary" -> k <> "description" -> k <> "location" ->
               k <> "start" -> k <> "end" -> dict_get d' k = dict_get d k).
Proof.
  eexists. split; [apply update_event_body_dict|].
  repeat apply conj.
  - rewrite !dict_get_set_if.
    destruct (if_truthy _ end_), (if_truthy _ start), location, description,
      (if_truthy _ summary); reflexivity.
  - rewrite !dict_get_set_if.
    destruct (if_truthy _ end_), (if_truthy _ start), location, description,
      (if_truthy _ summary); reflexivity.
  - rewrite !dict_get_set_if.
    destruct (if_truthy _ end_), (if_truthy _ start), location, description,
      (if_truthy _ summary); reflexivity.
  - rewrite !dict_get_set_if.
    destruct (if_truthy _ end_), (if_truthy _ start), location, description,
      (if_truthy _ summary); reflexivity.
  - rewrite !dict_get_set_if.
    destruct (if_truthy _ end_), (if_truthy _ start), location, description,
      (if_truthy _ summary); reflexivity.
  - intros k H1 H2 H3 H4 H5. rewrite !dict_get_set_if.
    destruct (if_truthy _ end_), (if_truthy _ start), location, description,
      (if_truthy _ summary); cbn [fmap option_fmap option_map]; other_key; reflexivity.
Qed.

(** C5. Updating a dict event returns a dict in which every field holds
    what was supplied for it and is untouched otherwise.  [description] and
    [location] hold the supplied text, the empty string included, and keep
    their old value when the argument is [None].  [summary] holds the
    supplied text, and [start] and [end] the supplied stamp (a [date] or a
    [dateTime] with the timezone), whenever the argument is a non-empty text;
    they keep their old value when the argument is omitted, or empty (which
    the code treats as omitted).  Every other key is untouched. *)
Theorem update_event_body_partial (d : list (string * json))
    (summary start end_ description location : option string) (timezone : string) :
  exists d',
    update_event_body (JObj d) summary start end_ description location timezone
    = Return (JObj d') /\
    dict_get d' "description"
    = match description with
      | Some s => Some (JStr s)
      | None => dict_get d "description"
      end /\
    dict_get d' "location"
    = match location with
      | Some s => Some (JStr s)
      | None => dict_get d "location"
      end /\
    (summary = None -> dict_get d' "summary" = dict_get d "summary") /\
    (start = None -> dict_get d' "start" = dict_get d "start") /\
    (end_ = None -> dict_get d' "end" = dict_get d "end") /\
    (forall k, k <> "summary" -> k <> "description" -> k <> "location" ->
               k <> "start" -> k <> "end" -> dict_get d' k = dict_get d k) /\
    dict_get d' "summary"
    = match summary with
      | Some s => if truthy_str s then Some (JStr s) else dict_get d "summary"
      | None => dict_get d "summary"
      end /\
    dict_get d' "start"
    = match start with
      | Some s =>
          if truthy_str s
          then Some (if Nat.eqb (String.length s) 10
                     then JObj [("date", JStr s); ("timeZone", JStr timezone)]
                     else JObj [("dateTime", JStr s); ("timeZone", JStr timezone)])
          else dict_get d "start"
      | None => dict_get d "start"
      end /\
    dict_get d' "end"
    = match end_ with
      | Some s =>
          if truthy_str s
          then Some (if Nat.eqb (String.length s) 10
                     then JObj [("date", JStr s); ("timeZone", JStr timezone)]
                     else JObj [("dateTime", JStr s); ("timeZone", JStr timezone)])
          else dict_get d "end"
      | None => dict_get d "end"
      end.
Proof.
  destruct (update_event_body_fields d summary start end_ description location timezone)
    as (d' & Hd & Hsu & Hde & Hlo & Hst & Hen & Hk).
  exists d'. split; [exact Hd|].
  repeat apply conj.
  - exact Hde.
  - exact Hlo.
  - intros ->. exact Hsu.
  - intros ->. exact Hst.
  - intros ->. exact Hen.
  - exact Hk.
  - rewrite Hsu. destruct summary as [s|]; cbn [if_truthy]; [|reflexivity].
    now destruct (truthy_str s).
  - rewrite Hst. destruct start as [s|]; cbn [if_truthy]; [|reflexivity].
    destruct (truthy_str s); [|reflexivity].
    unfold stamp, time_field. now destruct (Nat.eqb (String.length s) 10).
  - rewrite Hen. destruct end_ as [s|]; cbn [if_truthy]; [|reflexivity].
    destruct (truthy_str s); [|reflexivity].
    unfold stamp, time_field. now destruct (Nat.eqb (String.length s) 10).
Qed.

Lemma update_event_body_partial_witness :
  let d := [("id", JStr "e1"); ("summary", JStr "Old"); ("location", JStr "A")] in
  (exists d', update_event_body (JObj d) None None None None None "UTC" = Return (JObj d') /\
              dict_get d' "location" = Some (JStr "A")) /\
  (exists d', update_event_body (JObj d) None None None None (Some "") "UTC" = Return (JObj d') /\
              dict_get d' "location" = Some (JStr "")) /\
  (exists d', update_event_body (JObj d) (Some "New") (Some "2025-01-20") None None None "UTC"
              = Return (JObj d') /\
              dict_get d' "summary" = Some (JStr "New") /\
              dict_get d' "start"
              = Some (JObj [("date", JStr "2025-01-20"); ("timeZone", JStr "UTC")]) /\
              dict_get d' "location" = Some (JStr "A")).
Proof.
  cbv zeta. split; [|split].
  - destruct (update_event_body_partial
                [("id", JStr "e1"); ("summary", JStr "Old"); ("location", JStr "A")]
                None None None None None "UTC") as (d' & Hd & _ & Hloc & _).
    exists d'. split; [exact Hd | exact Hloc].
  - destruct (update_event_body_partial
                [("id", JStr "e1"); ("summary", JStr "Old"); ("location", JStr "A")]
                None None None None (Some "") "UTC") as (d' & Hd & _ & Hloc & _).
    exists d'. split; [exact Hd | exact Hloc].
  - destruct (update_event_body_partial
                [("id", JStr "e1"); ("summary", JStr "Old"); ("location", JStr "A")]
                (Some "New") (Some "2025-01-20") None None None "UTC")
      as (d' & Hd & _ & Hloc & _ & _ & _ & _ & Hsu & Hst & _).
    exists d'. repeat apply conj; [exact Hd | exact Hsu | exact Hst | exact Hloc].
Defined.

(** C9. An empty [summary] is the same call as an omitted one, and so it
    leaves the event's summary as it was; the same holds of [start] and
    [end].  Only for [description] and [location] is the empty string
    written to the event. *)
Theorem update_event_body_empty_string :
  (forall event st en de lo tz,
      update_event_body event (Some "") st en de lo tz
      = update_event_body event None st en de lo tz) /\
  (forall d st en de lo tz,
      exists d', update_event_body (JObj d) (Some "") st en de lo tz = Return (JObj d') /\
                 dict_get d' "summary" = dict_get d "summary") /\
  (forall event su en de lo tz,
      update_event_body event su (Some "") en de lo tz
      = update_event_body event su None en de lo tz) /\
  (forall event su st de lo tz,
      update_event_body event su st (Some "") de lo tz
      = update_event_body event su st None de lo tz) /\
  (forall d su st en lo tz,
      exists d', update_event_body (JObj d) su st en (Some "") lo tz = Return (JObj d') /\
                 dict_get d' "description" = Some (JStr "")) /\
  (forall d su st en de tz,
      exists d', update_event_body (JObj d) su st en de (Some "") tz = Return (JObj d') /\
                 dict_get d' "location" = Some (JStr "")).
Proof.
  repeat apply conj.
  - reflexivity.
  - intros d st en de lo tz.
    destruct (update_event_body_fields d None st en de lo tz) as (d' & Hd & Hsu & _).
    exists d'. split; [exact Hd | exact Hsu].
  - reflexivity.
  - reflexivity.
  - intros d su st en lo tz.
    destruct (update_event_body_fields d su st en (Some "") lo tz) as (d' & Hd & _ & Hde & _).
    exists d'. split; [exact Hd | exact Hde].
  - intros d su st en de tz.
    destruct (update_event_body_fields d su st en de (Some "") tz)
      as (d' & Hd & _ & _ & Hlo & _).
    exists d'. split; [exact Hd | exact Hlo].
Qed.

Lemma create_event_body_start (summary start end_ : string)
    (description location : option string) (timezone : string) :
  dict_get (create_event_body summary start end_ description location timezone) "start"
  = Some (time_field (Nat.eqb (String.length start) 10) start timezone).
Proof.
  unfold create_event_body.
  destruct description as [de|]; [destruct (truthy_str de)|];
  (destruct location as [lo|]; [destruct (truthy_str lo)|]);
  rewrite ?dict_get_set; reflexivity.
Qed.

Lemma create_event_body_end (summary start end_ : string)
    (description location : option string) (timezone : string) :
  dict_get (create_event_body summary start end_ description location timezone) "end"
  = Some (time_field (Nat.eqb (String.length start) 10) end_ timezone).
Proof.
  unfold create_event_body.
  destruct description as [de|]; [destruct (truthy_str de)|];
  (destruct location as [lo|]; [destruct (truthy_str lo)|]);
  rewrite ?dict_get_set; reflexivity.
Qed.

(** C10. In a created event the choice between [date] and [dateTime] is
    made from the length of [start] alone and used for both fields: [end]
    lands in a [date] field exactly when [start] has 10 characters, whatever
    [end] looks like.  With start 2025-01-20 the end 2025-01-20T10:00:00 is
    placed in a [date] field. *)
Theorem create_event_body_all_day (summary start end_ : string)
    (description location : option string) (timezone : string) :
  let event := create_event_body summary start end_ description location timezone in
  dict_get event "start"
  = Some (if Nat.eqb (String.length start) 10
          then JObj [("date", JStr start); ("timeZone", JStr timezone)]
          else JObj [("dateTime", JStr start); ("timeZone", JStr timezone)]) /\
  dict_get event "end"
  = Some (if Nat.eqb (String.length start) 10
          then JObj [("date", JStr end_); ("timeZone", JStr timezone)]
          else JObj [("dateTime", JStr end_); ("timeZone", JStr timezone)]) /\
  dict_get (create_event_body summary "2025-01-20" "2025-01-20T10:00:00"
              description location timezone) "end"
  = Some (JObj [("date", JStr "2025-01-20T10:00:00"); ("timeZone", JStr timezone)]).
Proof.
  cbv zeta. rewrite create_event_body_start, !create_event_body_end.
  repeat split.
Qed.

(** C6, as the code has it.  A created event, and an updated event whose
    [start] argument is a non-empty string, carries a [date] start field when
    [start] has exactly 10 characters and a [dateTime] start field otherwise,
    each with the given timezone; an update whose [start] is the empty string
    leaves the start field as it was. *)
Theorem start_field_by_length :
  (forall summary start end_ description location timezone,
      dict_get (create_event_body summary start end_ description location timezone) "start"
      = Some (if Nat.eqb (String.length start) 10
              then JObj [("date", JStr start); ("timeZone", JStr timezone)]
              else JObj [("dateTime", JStr start); ("timeZone", JStr timezone)])) /\
  (forall d summary start end_ description location timezone,
      start <> "" ->
      exists d',
        update_event_body (JObj d) summary (Some start) end_ description location timezone
        = Return (JObj d') /\
        dict_get d' "start"
        = Some (if Nat.eqb (String.length start) 10
                then JObj [("date", JStr start); ("timeZone", JStr timezone)]
                else JObj [("dateTime", JStr start); ("timeZone", JStr timezone)])) /\
  (forall d summary end_ description location timezone,
      exists d',
        update_event_body (JObj d) summary (Some "") end_ description location timezone
        = Return (JObj d') /\
        dict_get d' "start" = dict_get d "start") /\
  dict_get (create_event_body "s" "2025-01-20" "2025-01-21" None None "UTC") "start"
  = Some (JObj [("date", JStr "2025-01-20"); ("timeZone", JStr "UTC")]) /\
  dict_get (create_event_body "s" "2025-01-20T10:00:00" "2025-01-20T11:00:00" None None "UTC")
           "start"
  = Some (JObj [("dateTime", JStr "2025-01-20T10:00:00"); ("timeZone", JStr "UTC")]).
Proof.
  repeat apply conj.
  - intros. rewrite create_event_body_start. reflexivity.
  - intros d summary start end_ description location timezone Hne.
    eexists. split; [apply update_event_body_dict|].
    rewrite !dict_get_set_if.
    change (if_truthy (stamp timezone) (Some start))
      with (if truthy_str start then Some (stamp timezone start) else None).
    rewrite (truthy_str_true start Hne).
    destruct (if_truthy _ end_); reflexivity.
  - intros d summary end_ description location timezone.
    destruct (update_event_body_fields d summary None end_ description location timezone)
      as (d' & Hd & _ & _ & _ & Hst & _).
    exists d'. split; [exact Hd | exact Hst].
  - reflexivity.
  - reflexivity.
Qed.

Lemma start_field_by_length_witness :
  exists d',
    update_event_body (JObj [("id", JStr "e1")]) None (Some "2025-01-20T10:00:00")
                      None None None "Europe/Paris"
    = Return (JObj d') /\
    dict_get d' "start"
    = Some (JObj [("dateTime", JStr "2025-01-20T10:00:00"); ("timeZone", JStr "Europe/Paris")]).
Proof.
  destruct start_field_by_length as (_ & Hupd & _).
  apply (Hupd [("id", JStr "e1")] None "2025-01-20T10:00:00" None None None "Europe/Paris").
  discriminate.
Defined.

(** C6 as worded fails for updates: the empty string is a start string of
    a length other than 10, and the update that passes it produces no
    [dateTime] field; an all-day event keeps its [date] start. *)
Lemma update_empty_start_counterexample :
  let event := JObj [("id", JStr "e1"); ("start", JObj [("date", JStr "2025-01-20")])] in
  String.length "" <> 10 /\
  update_event_body event None (Some "") None None None "UTC" = Return event /\
  py_index event "start" <> Return (JObj [("dateTime", JStr ""); ("timeZone", JStr "UTC")]).
Proof.
  cbv zeta. repeat split; [discriminate | discriminate].
Qed.

(** ** Reading a thread *)

Lemma slice_to_length (n : nat) (s : string) :
  String.length (slice_to n s) = Nat.min n (String.length s).
Proof.
  unfold slice_to. revert s.
  induction n as [|n IH]; intros [|c s]; cbn; try reflexivity.
  now rewrite IH.
Qed.

Lemma slice_to_short (n : nat) (s : string) :
  String.length s <= n -> slice_to n s = s.
Proof.
  unfold slice_to. revert s.
  induction n as [|n IH]; intros [|c s]; cbn; intros Hlen; try reflexivity.
  - lia.
  - rewrite IH; [reflexivity | lia].
Qed.

Section ThreadFacts.
Context {ext : Externals}.

Lemma scan_parts_find (parts : list json) :
  Forall well_formed_part parts ->
  scan_parts parts
  = match List.find usable_part parts with
    | Some p => decode (part_data p)
    | None => Return ""
    end.
Proof.
  induction 1 as [|part parts (d & -> & Hbody) _ IH]; [reflexivity|].
  cbn [scan_parts List.find]. unfold usable_part, is_plain_text, part_mime, part_data.
  cbn [py_get obind].
  destruct (is_str _ "text/plain"); cbn [andb]; [|exact IH].
  destruct Hbody as [Hb | (b & Hb)]; rewrite Hb; cbn [py_get obind json_truthy];
    [exact IH|].
  destruct (json_truthy _); [|exact IH].
  unfold part_data. now rewrite Hb.
Qed.

Lemma extract_body_direct (pd b : list (string * json)) (s : string) :
  dict_get pd "body" = Some (JObj b) ->
  dict_get b "data" = Some (JStr s) ->
  s <> "" ->
  extract_body pd = urlsafe_b64decode_utf8 s.
Proof.
  intros Hb Hd Hs. unfold extract_body, direct_data. rewrite Hb. cbn [py_get]. rewrite Hd.
  cbn [obind json_truthy]. now rewrite (truthy_str_true s Hs).
Qed.

Lemma extract_body_parts (pd : list (string * json)) (direct : json) (parts : list json) :
  direct_data pd = Return direct ->
  json_truthy direct = false ->
  dict_get pd "parts" = Some (JArr parts) ->
  Forall well_formed_part parts ->
  extract_body pd
  = match List.find usable_part parts with
    | Some p => decode (part_data p)
    | None => Return ""
    end.
Proof.
  intros Hd Hf Hp Hwf. unfold extract_body. rewrite Hd. cbn [obind]. rewrite Hf, Hp.
  cbn [py_iter obind]. now apply scan_parts_find.
Qed.

Lemma thread_entry_body (msg : json) (pd : list (string * json))
    (hs : list (json * json)) (body : string) (id : json) :
  py_get msg "payload" (JObj []) = Return (JObj pd) ->
  headers_of (JObj pd) = Return hs ->
  extract_body pd = Return body ->
  py_index msg "id" = Return id ->
  exists entry,
    thread_entry msg = Return (JObj entry) /\
    dict_get entry "body" = Some (JStr (slice_to 5000 body)).
Proof.
  intros Hp Hh Hb Hi. unfold thread_entry.
  rewrite Hp. cbn [obind]. rewrite Hh. cbn [obind]. rewrite Hb. cbn [obind].
  rewrite Hi. cbn [obind]. eexists. split; reflexivity.
Qed.

(** C7, as the code has it.  The body of a message is the decoded [data]
    of the payload's own body when that is a non-empty string; failing that
    it is the decoded [data] of the first part that is [text/plain] and has
    non-empty [data], and the empty string when there is no such part.  The
    entry carries the first 5000 characters of it: never more than 5000,
    exactly 5000 of a body of 6000, and a body of at most 5000 characters
    (one of 100, say) unchanged. *)
Theorem read_thread_body :
  (forall pd b s,
      dict_get pd "body" = Some (JObj b) ->
      dict_get b "data" = Some (JStr s) ->
      s <> "" ->
      extract_body pd = urlsafe_b64decode_utf8 s) /\
  (forall pd direct parts,
      direct_data pd = Return direct ->
      json_truthy direct = false ->
      dict_get pd "parts" = Some (JArr parts) ->
      Forall well_formed_part parts ->
      extract_body pd
      = match List.find usable_part parts with
        | Some p => decode (part_data p)
        | None => Return ""
        end) /\
  (forall msg pd hs body id,
      py_get msg "payload" (JObj []) = Return (JObj pd) ->
      headers_of (JObj pd) = Return hs ->
      extract_body pd = Return body ->
      py_index msg "id" = Return id ->
      exists entry,
        thread_entry msg = Return (JObj entry) /\
        dict_get entry "body" = Some (JStr (slice_to 5000 body))) /\
  (forall body, String.length (slice_to 5000 body) <= 5000) /\
  (forall body, String.length body = 6000 -> String.length (slice_to 5000 body) = 5000) /\
  (forall body, String.length body = 100 -> slice_to 5000 body = body) /\
  (forall body, String.length body <= 5000 -> slice_to 5000 body = body).
Proof.
  repeat apply conj.
  - exact extract_body_direct.
  - exact extract_body_parts.
  - exact thread_entry_body.
  - intros body. rewrite slice_to_length. apply Nat.le_min_l.
  - intros body Hlen. rewrite slice_to_length, Hlen. vm_compute; reflexivity.
  - intros body Hlen. apply slice_to_short. rewrite Hlen.
    apply Nat.leb_le. vm_compute; reflexivity.
  - intros body Hlen. now apply slice_to_short.
Qed.

End ThreadFacts.

Lemma read_thread_body_witness :
  extract_body (ext := sample) mixed_payload = Return "aGk" /\
  String.length (slice_to 5000 (filler 6000)) = 5000 /\
  slice_to 5000 (filler 100) = filler 100.
Proof.
  destruct (read_thread_body (ext := sample)) as (_ & Hparts & _ & _ & Hcut & Hkeep & _).
  split; [|split].
  - rewrite (Hparts mixed_payload JNull [attachment_part; text_part]).
    + reflexivity.
    + reflexivity.
    + reflexivity.
    + reflexivity.
    + repeat constructor; eexists; (split; [reflexivity | right; eexists; reflexivity]).
  - apply Hcut. vm_compute; reflexivity.
  - apply Hkeep. vm_compute; reflexivity.
Defined.

(** C7 as worded fails where the first [text/plain] part has no inline
    data: the body is then not taken from that part, which has nothing to
    decode, but from a later one. *)
Lemma first_plain_part_counterexample :
  List.find is_plain_text [attachment_part; text_part] = Some attachment_part /\
  part_data attachment_part = JNull /\
  dict_get mixed_payload "parts" = Some (JArr [attachment_part; text_part]) /\
  direct_data mixed_payload = Return JNull /\
  extract_body (ext := sample) mixed_payload = Return "aGk" /\
  extract_body (ext := sample) mixed_payload = decode (ext := sample) (part_data text_part) /\
  extract_body (ext := sample) mixed_payload <> Return "".
Proof.
  repeat split; discriminate.
Qed.

(** ** Searching *)

Section SearchFacts.
Context {ext : Externals}.

Lemma search_entry_run (c : Credentials) (msg id detail o : json) (w : World) :
  py_index msg "id" = Return id ->
  execute c (MessagesGetMetadata id) = Return detail ->
  search_output msg detail = Return o ->
  search_entry c msg w = (Return o, log (ServiceCall c (MessagesGetMetadata id)) w).
Proof.
  intros Hid Hex Ho. unfold search_entry, call, bind, lift, emit.
  now rewrite Hid, Hex, Ho.
Qed.

Lemma for_each_search_entry (c : Credentials) (items out : list json) :
  Forall2 (fun msg o =>
             exists id detail,
               py_index msg "id" = Return id /\
               execute c (MessagesGetMetadata id) = Return detail /\
               search_output msg detail = Return o) items out ->
  forall w, exists w',
    for_each (search_entry c) items w = (Return out, w') /\
    environ w' = environ w /\ files w' = files w.
Proof.
  induction 1 as [|msg o items out (id & detail & Hid & Hex & Ho) _ IH]; intros w.
  - exists w. repeat split.
  - cbn [for_each]. unfold bind at 1.
    rewrite (search_entry_run c msg id detail o w Hid Hex Ho).
    destruct (IH (log (ServiceCall c (MessagesGetMetadata id)) w)) as (w' & Hrun & He & Hf).
    unfold bind. rewrite Hrun. exists w'. repeat split; assumption.
Qed.

(** C8. Once the credentials are resolved and the list request has
    returned: when the response has no messages (the key is missing, or
    its value is empty) [gmail_search] returns the sentinel text as a normal
    result, after that single request; when it has messages the result is
    never the sentinel: either an exception of a later step propagates or the
    result is [json.dumps(output, indent=2)] of a list, and it is the latter,
    with one entry per message, whenever every per-message step succeeds. *)
Theorem gmail_search_result (query : string) (max_results : Z) (account : string)
    (w w1 : World) (c : Credentials) (results messages : json) :
  get_gmail account w = (Return c, w1) ->
  execute c (MessagesList query max_results) = Return results ->
  py_get results "messages" (JArr []) = Return messages ->
  let r := gmail_search query max_results account w in
  (json_truthy messages = false ->
   r = (Return "No messages found.",
        log (ServiceCall c (MessagesList query max_results)) w1)) /\
  (json_truthy messages = true ->
   (exists e, fst r = Raise e) \/
   (exists output, fst r = Return (json_dumps 2 (JArr output)))) /\
  (json_truthy messages = true ->
   forall items output,
     py_iter messages = Return items ->
     Forall2 (fun msg o =>
                exists id detail,
                  py_index msg "id" = Return id /\
                  execute c (MessagesGetMetadata id) = Return detail /\
                  search_output msg detail = Return o) items output ->
     fst r = Return (json_dumps 2 (JArr output)) /\
     length output = length items).
Proof.
  intros Hc Hlist Hmsgs r. subst r.
  unfold gmail_search, call, bind, emit, lift, ret.
  rewrite Hc. cbv beta iota. rewrite Hlist. cbv beta iota. rewrite Hmsgs. cbv beta iota.
  repeat apply conj.
  - intros ->. reflexivity.
  - intros ->. cbn [negb].
    destruct (py_iter messages) as [e|items]; [left; eauto|].
    destruct (for_each _ items _) as [[e|output] w2]; [left; eauto | right; eauto].
  - intros -> items output Hit Hall. cbn [negb]. rewrite Hit.
    destruct (for_each_search_entry c items output Hall
                (log (ServiceCall c (MessagesList query max_results)) w1))
      as (w2 & Hrun & _).
    rewrite Hrun. split; [reflexivity|].
    symmetry. eapply Forall2_length; eauto.
Qed.

End SearchFacts.

Lemma gmail_search_result_witness :
  gmail_search (ext := sample) "nothing" 10 "personal" (local_world "V")
  = (Return "No messages found.",
     log (ServiceCall tok_live (MessagesList "nothing" 10))
       (mkWorld ∅ (files (local_world "V"))
          [EnvRead "GOOGLE_TOKEN_PERSONAL"; FileExists "token_personal.json";
           FileRead "token_personal.json"])) /\
  (exists output,
     fst (gmail_search (ext := sample) "is:unread" 10 "personal" (local_world "V"))
     = Return (json_dumps (Externals := sample) 2 (JArr output)) /\
     length output = 2).
Proof.
  split.
  - refine (proj1 (gmail_search_result (ext := sample) "nothing" 10 "personal"
                     (local_world "V") _ tok_live
                     (JObj [("resultSizeEstimate", JNum 0)]) (JArr []) _ _ _) _).
    + vm_compute; reflexivity.
    + reflexivity.
    + reflexivity.
    + reflexivity.
  - exists [sample_entry "m1"; sample_entry "m2"].
    refine (proj2 (proj2 (gmail_search_result (ext := sample) "is:unread" 10 "personal"
                     (local_world "V") _ tok_live
                     (JObj [("messages", JArr [sample_message "m1"; sample_message "m2"])])
                     (JArr [sample_message "m1"; sample_message "m2"]) _ _ _)) _
                  [sample_message "m1"; sample_message "m2"] _ _ _).
    + vm_compute; reflexivity.
    + reflexivity.
    + reflexivity.
    + reflexivity.
    + reflexivity.
    + repeat constructor; (eexists; eexists; repeat split; reflexivity).
Defined.

(** ** The tools and the requests they send *)

Section ToolRequests.
Context {ext : Externals}.

(** [calendar_create_event] sends exactly the body built from its arguments. *)
Lemma calendar_create_event_request (summary start end_ calendar_id : string)
    (description location : option string) (timezone account : string)
    (w w1 : World) (c : Credentials) :
  get_calendar account w = (Return c, w1) ->
  snd (calendar_create_event summary start end_ calendar_id description location
         timezone account w)
  = log (ServiceCall c (EventsInsert calendar_id
           (JObj (create_event_body summary start end_ description location timezone)))) w1.
Proof.
  intros Hc. unfold calendar_create_event, call, bind, emit, lift, ret.
  rewrite Hc. cbv beta iota zeta.
  destruct (execute c _) as [e|result]; [reflexivity|].
  destruct (py_index result "id"); [reflexivity|].
  destruct (py_get result "htmlLink" _); reflexivity.
Qed.

(** [calendar_update_event] fetches the event and sends back what
    [update_event_body] makes of it. *)
Lemma calendar_update_event_request (event_id calendar_id : string)
    (summary start end_ description location : option string) (timezone account : string)
    (w w1 : World) (c : Credentials) (event event' : json) :
  get_calendar account w = (Return c, w1) ->
  execute c (EventsGet calendar_id event_id) = Return event ->
  update_event_body event summary start end_ description location timezone = Return event' ->
  snd (calendar_update_event event_id calendar_id summary start end_ description location
         timezone account w)
  = log (ServiceCall c (EventsUpdate calendar_id event_id event'))
        (log (ServiceCall c (EventsGet calendar_id event_id)) w1).
Proof.
  intros Hc Hget Hupd. unfold calendar_update_event, call, bind, emit, lift, ret.
  rewrite Hc. cbv beta iota. rewrite Hget. cbv beta iota. rewrite Hupd. cbv beta iota.
  destruct (execute c (EventsUpdate calendar_id event_id event')) as [e|result];
    [reflexivity|].
  destruct (py_index result "id"); [reflexivity|].
  destruct (py_get result "updated" _); reflexivity.
Qed.

(** [gmail_read_thread] returns the dump of one [thread_entry] per message. *)
Lemma gmail_read_thread_entries (thread_id account : string) (w w1 : World)
    (c : Credentials) (thread msgs : json) (items entries : list json) :
  get_gmail account w = (Return c, w1) ->
  execute c (ThreadsGetFull thread_id) = Return thread ->
  py_get thread "messages" (JArr []) = Return msgs ->
  py_iter msgs = Return items ->
  omap thread_entry items = Return entries ->
  gmail_read_thread thread_id account w
  = (Return (json_dumps 2 (JArr entries)), log (ServiceCall c (ThreadsGetFull thread_id)) w1).
Proof.
  intros Hc Hget Hm Hi He. unfold gmail_read_thread, call, bind, emit, lift, ret.
  rewrite Hc. cbv beta iota. rewrite Hget. cbv beta iota. rewrite Hm. cbv beta iota.
  rewrite Hi. cbv beta iota. now rewrite He.
Qed.

End ToolRequests.

(** * Further properties of the code *)

(** ** Loading and resolving credentials *)

Section CredentialPaths.
Context {ext : Externals}.

Lemma load_file (v token_file s : string) (w : World) :
  truthy (Some v) = true ->
  truthy (environ w !! v) = false ->
  files w !! token_file = Some s ->
  load (Some v) token_file w =
    (c <~ from_authorized_user_info s SCOPES ;; Return (Some c),
     mkWorld (environ w) (files w)
       (trace w ++ [EnvRead v; FileExists token_file; FileRead token_file])).
Proof.
  intros Hv He Hf.
  unfold load. rewrite Hv.
  unfold from_authorized_user_file, bind, environ_get, path_exists, read_text, lift, ret, log;
    cbn [environ files trace].
  rewrite He. cbn [environ files trace]. rewrite Hf.
  rewrite bool_decide_eq_true_2 by eauto.
  cbn [environ files trace]. rewrite Hf.
  rewrite <- !app_assoc. cbn [app].
  destruct (from_authorized_user_info s SCOPES); reflexivity.
Qed.


(** A known account whose variable is unset or empty is served from its
    token file: the file is tested, read and parsed, and a parse error is
    the error of the load. *)
Theorem load_falls_back_to_file (account token_file v s : string) (w : World) :
  dict_get ACCOUNTS account = Some token_file ->
  dict_get ENV_TOKENS account = Some v ->
  truthy (environ w !! v) = false ->
  files w !! token_file = Some s ->
  load (dict_get ENV_TOKENS account) token_file w =
    (c <~ from_authorized_user_info s SCOPES ;; Return (Some c),
     mkWorld (environ w) (files w)
       (trace w ++ [EnvRead v; FileExists token_file; FileRead token_file])).
Proof.
  intros _ Hv He Hf. rewrite Hv. apply load_file; eauto using env_var_truthy.
Qed.

(** A loaded token that is valid is returned as it is: after the load
    there is no refresh, no prompt, no grant and no write. *)
Theorem get_credentials_valid
    (account token_file : string) (c : Credentials) (w w1 : World) :
  dict_get ACCOUNTS account = Some token_file ->
  load (dict_get ENV_TOKENS account) token_file w = (Return (Some c), w1) ->
  valid c = true ->
  get_credentials account w = (Return c, w1).
Proof.
  intros Hacc Hload Hv. unfold get_credentials. rewrite Hacc.
  cbv zeta. unfold bind at 1. rewrite Hload. now rewrite Hv.
Qed.

(** A variable holding a non-empty text that does not parse as a token
    makes [get_credentials] raise the parse error after the two reads of the
    variable: the token file is not tried instead. *)
Theorem get_credentials_malformed_variable
    (account token_file v a : string) (e : exn) (w : World) :
  dict_get ACCOUNTS account = Some token_file ->
  dict_get ENV_TOKENS account = Some v ->
  environ w !! v = Some a ->
  a <> "" ->
  from_authorized_user_info a SCOPES = Raise e ->
  get_credentials account w =
    (Raise e, mkWorld (environ w) (files w) (trace w ++ [EnvRead v; EnvRead v])).
Proof.
  intros Hacc Hv Ha Hne He. unfold get_credentials. rewrite Hacc, Hv.
  cbv zeta. unfold bind at 1.
  rewrite (load_env v token_file a w (env_var_truthy _ _ Hv) Ha Hne).
  now rewrite He.
Qed.

(** What [no_usable_token] does in a local context, by the outcome of
    the grant. *)
Lemma no_usable_token_local (account v token_file secrets : string) (w : World) :
  truthy (environ w !! v) = false ->
  files w !! CREDENTIALS_PATH = Some secrets ->
  no_usable_token account (Some v) token_file w =
    match run_local_server secrets SCOPES with
    | Return c' =>
        (Return c',
         mkWorld (environ w) (<[token_file := to_json c']> (files w))
           (trace w ++ [EnvRead v; Print (authorize_msg account);
                        FileRead CREDENTIALS_PATH; Authorize;
                        FileWrite token_file (to_json c')]))
    | Raise e =>
        (Raise e,
         mkWorld (environ w) (files w)
           (trace w ++ [EnvRead v; Print (authorize_msg account);
                        FileRead CREDENTIALS_PATH; Authorize]))
    end.
Proof.
  intros He Hs.
  unfold no_usable_token, interactive_flow, bind, environ_get, emit, read_text, write_text,
    lift, ret, log; cbn [environ files trace].
  rewrite He. cbn [environ files trace]. rewrite Hs.
  destruct (run_local_server secrets SCOPES); cbn [environ files trace];
    rewrite <- !app_assoc; reflexivity.
Qed.

Lemma no_usable_token_no_secrets (account v token_file : string) (w : World) :
  truthy (environ w !! v) = false ->
  files w !! CREDENTIALS_PATH = None ->
  no_usable_token account (Some v) token_file w =
    (Raise (FileNotFoundError CREDENTIALS_PATH),
     mkWorld (environ w) (files w)
       (trace w ++ [EnvRead v; Print (authorize_msg account); FileRead CREDENTIALS_PATH])).
Proof.
  intros He Hs.
  unfold no_usable_token, interactive_flow, bind, environ_get, emit, read_text,
    lift, ret, log; cbn [environ files trace].
  rewrite He. cbn [environ files trace]. rewrite Hs.
  rewrite <- !app_assoc; reflexivity.
Qed.

Lemma get_credentials_no_usable
    (account token_file : string) (creds : option Credentials) (w w1 : World) :
  dict_get ACCOUNTS account = Some token_file ->
  load (dict_get ENV_TOKENS account) token_file w = (Return creds, w1) ->
  match creds with
  | Some c => valid c = false /\ expired c && truthy (refresh_token c) = false
  | None => True
  end ->
  get_credentials account w
  = no_usable_token account (dict_get ENV_TOKENS account) token_file w1.
Proof.
  intros Hacc Hload Hbad. unfold get_credentials. rewrite Hacc.
  cbv zeta. unfold bind at 1. rewrite Hload.
  destruct creds as [c|]; [|reflexivity].
  destruct Hbad as [Hv Hr]. now rewrite Hv, Hr.
Qed.

(** In a local context (variable unset or empty) with no token, or with
    one that is neither valid nor refreshable, a successful interactive grant
    is returned and written to the account's token file; the prompt, the read
    of the client secrets, the grant and the write happen in this order. *)
Theorem get_credentials_local_grant
    (account token_file v secrets : string) (creds : option Credentials)
    (c' : Credentials) (w w1 : World) :
  dict_get ACCOUNTS account = Some token_file ->
  dict_get ENV_TOKENS account = Some v ->
  load (dict_get ENV_TOKENS account) token_file w = (Return creds, w1) ->
  match creds with
  | Some c => valid c = false /\ expired c && truthy (refresh_token c) = false
  | None => True
  end ->
  truthy (environ w1 !! v) = false ->
  files w1 !! CREDENTIALS_PATH = Some secrets ->
  run_local_server secrets SCOPES = Return c' ->
  get_credentials account w =
    (Return c',
     mkWorld (environ w1) (<[token_file := to_json c']> (files w1))
       (trace w1 ++ [EnvRead v; Print (authorize_msg account);
                     FileRead CREDENTIALS_PATH; Authorize;
                     FileWrite token_file (to_json c')])).
Proof.
  intros Hacc Hv Hload Hbad He Hs Hrun.
  rewrite (get_credentials_no_usable account token_file creds w w1 Hacc Hload Hbad), Hv.
  rewrite (no_usable_token_local account v token_file secrets w1 He Hs).
  now rewrite Hrun.
Qed.

(** In the same situation a grant that fails raises its error and leaves
    every file as it was: no token is written. *)
Theorem get_credentials_grant_fails
    (account token_file v secrets : string) (creds : option Credentials)
    (e : exn) (w w1 : World) :
  dict_get ACCOUNTS account = Some token_file ->
  dict_get ENV_TOKENS account = Some v ->
  load (dict_get ENV_TOKENS account) token_file w = (Return creds, w1) ->
  match creds with
  | Some c => valid c = false /\ expired c && truthy (refresh_token c) = false
  | None => True
  end ->
  truthy (environ w1 !! v) = false ->
  files w1 !! CREDENTIALS_PATH = Some secrets ->
  run_local_server secrets SCOPES = Raise e ->
  get_credentials account w =
    (Raise e,
     mkWorld (environ w1) (files w1)
       (trace w1 ++ [EnvRead v; Print (authorize_msg account);
                     FileRead CREDENTIALS_PATH; Authorize])).
Proof.
  intros Hacc Hv Hload Hbad He Hs Hrun.
  rewrite (get_credentials_no_usable account token_file creds w w1 Hacc Hload Hbad), Hv.
  rewrite (no_usable_token_local account v token_file secrets w1 He Hs).
  now rewrite Hrun.
Qed.

(** Without the client-secrets file the grant is not even started: the
    prompt is printed, the read fails with [FileNotFoundError], and nothing is
    written. *)
Theorem get_credentials_no_client_secrets
    (account token_file v : string) (creds : option Credentials) (w w1 : World) :
  dict_get ACCOUNTS account = Some token_file ->
  dict_get ENV_TOKENS account = Some v ->
  load (dict_get ENV_TOKENS account) token_file w = (Return creds, w1) ->
  match creds with
  | Some c => valid c = false /\ expired c && truthy (refresh_token c) = false
  | None => True
  end ->
  truthy (environ w1 !! v) = false ->
  files w1 !! CREDENTIALS_PATH = None ->
  get_credentials account w =
    (Raise (FileNotFoundError CREDENTIALS_PATH),
     mkWorld (environ w1) (files w1)
       (trace w1 ++ [EnvRead v; Print (authorize_msg account); FileRead CREDENTIALS_PATH])).
Proof.
  intros Hacc Hv Hload Hbad He Hs.
  rewrite (get_credentials_no_usable account token_file creds w w1 Hacc Hload Hbad), Hv.
  apply no_usable_token_no_secrets; assumption.
Qed.

End CredentialPaths.

(** ** What resolving credentials leaves alone *)

Lemma extends_but_refl (path : option string) (w : World) : extends_but path w w.
Proof. repeat split. exists []. now rewrite app_nil_r. Qed.

Lemma extends_but_trans (path : option string) (w1 w2 w3 : World) :
  extends_but path w1 w2 -> extends_but path w2 w3 -> extends_but path w1 w3.
Proof.
  intros (He1 & Hf1 & t1 & Ht1) (He2 & Hf2 & t2 & Ht2). repeat split.
  - congruence.
  - intros p Hp. rewrite Hf2, Hf1; auto.
  - exists (t1 ++ t2). rewrite Ht2, Ht1. now rewrite app_assoc.
Qed.

Lemma extends_but_log (path : option string) (e : Event) (w : World) :
  extends_but path w (log e w).
Proof. repeat split. now exists [e]. Qed.

Lemma keeps_ret {A} (path : option string) (a : A) : keeps path (ret a).
Proof. intros w. apply extends_but_refl. Qed.

Lemma keeps_raise {A} (path : option string) (e : exn) : keeps path (@raise A e).
Proof. intros w. apply extends_but_refl. Qed.

Lemma keeps_lift {A} (path : option string) (o : outcome A) : keeps path (lift o).
Proof. intros w. apply extends_but_refl. Qed.

Lemma keeps_emit (path : option string) (e : Event) : keeps path (emit e).
Proof. intros w. apply extends_but_log. Qed.

Lemma keeps_bind {A B} (path : option string) (m : M A) (k : A -> M B) :
  keeps path m -> (forall a, keeps path (k a)) -> keeps path (bind m k).
Proof.
  intros Hm Hk w. unfold bind. specialize (Hm w).
  destruct (m w) as [[e|a] w1]; cbn [snd] in *; [exact Hm|].
  eapply extends_but_trans; [exact Hm | apply Hk].
Qed.

Lemma keeps_environ_get (path : option string) (env_var : option string) :
  keeps path (environ_get env_var).
Proof.
  destruct env_var as [v|]; [|apply keeps_raise].
  intros w. apply extends_but_log.
Qed.

Lemma keeps_environ_index (path : option string) (env_var : option string) :
  keeps path (environ_index env_var).
Proof.
  destruct env_var as [v|]; [|apply keeps_raise].
  intros w. cbn. destruct (environ w !! v); apply extends_but_log.
Qed.

Lemma keeps_path_exists (path : option string) (p : string) : keeps path (path_exists p).
Proof. intros w. apply extends_but_log. Qed.

Lemma keeps_read_text (path : option string) (p : string) : keeps path (read_text p).
Proof. intros w. unfold read_text. destruct (files w !! p); apply extends_but_log. Qed.

Lemma keeps_write_text (p content : string) : keeps (Some p) (write_text p content).
Proof.
  intros w. repeat split; cbn.
  - intros q Hq. apply lookup_insert_ne. congruence.
  - now exists [FileWrite p content].
Qed.

Create HintDb keeps.
#[local] Hint Resolve keeps_ret keeps_raise keeps_lift keeps_emit keeps_environ_get
  keeps_environ_index keeps_path_exists keeps_read_text keeps_write_text : keeps.

Ltac keeps_steps :=
  repeat first
    [ apply keeps_bind; [|intros ?]
    | progress eauto with keeps
    | match goal with
      | |- keeps _ (if ?b then _ else _) => destruct b
      | |- keeps _ (match ?o with Some _ => _ | None => _ end) => destruct o
      end ].

Section CredentialFrame.
Context {ext : Externals}.

Lemma keeps_load (path : option string) (env_var : option string) (token_file : string) :
  keeps path (load env_var token_file).
Proof. unfold load, from_authorized_user_file. keeps_steps. Qed.

Lemma keeps_no_usable_token (account : string) (env_var : option string)
    (token_file : string) :
  keeps (Some token_file) (no_usable_token account env_var token_file).
Proof. unfold no_usable_token, interactive_flow. keeps_steps. Qed.

(** Whatever its outcome, [get_credentials] leaves the environment as it
    was, changes no file other than the token file of the account, and only
    adds to the trace; for an unknown account no file at all can change. *)
Theorem get_credentials_frame (account : string) (w : World) :
  extends_but (dict_get ACCOUNTS account) w (snd (get_credentials account w)).
Proof.
  revert w. change (keeps (dict_get ACCOUNTS account) (get_credentials account)).
  unfold get_credentials.
  destruct (dict_get ACCOUNTS account) as [token_file|]; [|apply keeps_raise].
  cbv zeta. apply keeps_bind; [apply keeps_load|].
  intros [c|]; [|apply keeps_no_usable_token].
  destruct (negb (valid c)); [|apply keeps_ret].
  destruct (expired c && truthy (refresh_token c)); [|apply keeps_no_usable_token].
  keeps_steps.
Qed.

Lemma load_outcome (env_var : option string) (token_file : string) (w w' : World) :
  environ w = environ w' ->
  files w = files w' ->
  fst (load env_var token_file w) = fst (load env_var token_file w').
Proof.
  destruct w as [en fi t], w' as [en' fi' t']. cbn [environ files].
  intros <- <-.
  unfold load, from_authorized_user_file, bind, environ_get, environ_index, path_exists,
    read_text, lift, ret, raise, log.
  destruct env_var as [v|]; cbn [truthy environ files trace];
    repeat (case_match; simplify_eq; cbn [fst snd environ files trace] in *;
            try reflexivity; try congruence).
Qed.

Lemma load_same_files (env_var : option string) (token_file : string) (w : World) :
  environ (snd (load env_var token_file w)) = environ w /\
  files (snd (load env_var token_file w)) = files w.
Proof.
  destruct (keeps_load None env_var token_file w) as (He & Hf & _).
  split; [exact He|]. apply map_eq. intros p. apply Hf. discriminate.
Qed.

(** A refreshed token is not stored: the call that follows a refresh finds
    the same stale token and goes to the token endpoint again. *)
Theorem get_credentials_refresh_again
    (account token_file : string) (c : Credentials) (w w1 : World) :
  dict_get ACCOUNTS account = Some token_file ->
  load (dict_get ENV_TOKENS account) token_file w = (Return (Some c), w1) ->
  expired c = true ->
  truthy (refresh_token c) = true ->
  exists w2,
    get_credentials account (snd (get_credentials account w))
    = (refresh c, log (Refresh c) w2).
Proof.
  intros Hacc Hload Hexp Hrt.
  assert (Hstale : forall w0 w0',
             load (dict_get ENV_TOKENS account) token_file w0 = (Return (Some c), w0') ->
             get_credentials account w0 = (refresh c, log (Refresh c) w0')).
  { intros w0 w0' H0. unfold get_credentials. rewrite Hacc.
    cbv zeta. unfold bind at 1. rewrite H0.
    unfold valid. rewrite Hexp, Hrt.
    destruct (token c); cbn; destruct (refresh c); reflexivity. }
  rewrite (Hstale w w1 Hload). cbn [snd].
  destruct (load_same_files (dict_get ENV_TOKENS account) token_file w) as (He & Hf).
  rewrite Hload in He, Hf. cbn [snd] in He, Hf.
  pose proof (load_outcome (dict_get ENV_TOKENS account) token_file
                (log (Refresh c) w1) w) as Hout.
  rewrite Hload in Hout. cbn [fst] in Hout. specialize (Hout He Hf).
  destruct (load (dict_get ENV_TOKENS account) token_file (log (Refresh c) w1))
    as [o w2] eqn:Hl2.
  cbn [fst] in Hout. subst o.
  exists w2. now apply Hstale.
Qed.


End CredentialFrame.

(** ** The credential paths on the sample worlds *)

Lemma load_falls_back_to_file_witness :
  load (ext := sample) (dict_get ENV_TOKENS "personal") "token_personal.json" empty_var_world
  = (Return (Some tok_dead), after_load empty_var_world true).
Proof.
  apply (load_falls_back_to_file (ext := sample)
           "personal" "token_personal.json" "GOOGLE_TOKEN_PERSONAL" "A" empty_var_world).
  - reflexivity.
  - reflexivity.
  - vm_compute; reflexivity.
  - vm_compute; reflexivity.
Defined.

Lemma get_credentials_valid_witness :
  get_credentials (ext := sample) "personal" (local_world "V")
  = (Return tok_live, after_load (local_world "V") true).
Proof.
  apply (get_credentials_valid (ext := sample) "personal" "token_personal.json" tok_live
           (local_world "V") (after_load (local_world "V") true)).
  - reflexivity.
  - vm_compute; reflexivity.
  - reflexivity.
Defined.

Lemma get_credentials_malformed_variable_witness :
  get_credentials (ext := sample) "personal" garbled_world
  = (Raise (ValueError "not a token"),
     mkWorld (environ garbled_world) (files garbled_world)
       [EnvRead "GOOGLE_TOKEN_PERSONAL"; EnvRead "GOOGLE_TOKEN_PERSONAL"]).
Proof.
  apply (get_credentials_malformed_variable (ext := sample)
           "personal" "token_personal.json" "GOOGLE_TOKEN_PERSONAL" "oops"
           (ValueError "not a token") garbled_world).
  - reflexivity.
  - reflexivity.
  - vm_compute; reflexivity.
  - discriminate.
  - reflexivity.
Defined.

Lemma get_credentials_local_grant_witness :
  get_credentials (ext := sample) "personal" bare_world
  = (Return tok_granted,
     mkWorld ∅ (<["token_personal.json" := "granted"]> (files bare_world))
       [EnvRead "GOOGLE_TOKEN_PERSONAL"; FileExists "token_personal.json";
        EnvRead "GOOGLE_TOKEN_PERSONAL"; Print (authorize_msg "personal");
        FileRead "credentials.json"; Authorize;
        FileWrite "token_personal.json" "granted"]).
Proof.
  apply (get_credentials_local_grant (ext := sample)
           "personal" "token_personal.json" "GOOGLE_TOKEN_PERSONAL" "secrets" None
           tok_granted bare_world (after_load bare_world false)).
  - reflexivity.
  - reflexivity.
  - vm_compute; reflexivity.
  - exact I.
  - vm_compute; reflexivity.
  - vm_compute; reflexivity.
  - reflexivity.
Defined.

Lemma get_credentials_grant_fails_witness :
  get_credentials (ext := declined) "personal" bare_world
  = (Raise (LibraryError "AccessDenied"),
     mkWorld ∅ (files bare_world)
       [EnvRead "GOOGLE_TOKEN_PERSONAL"; FileExists "token_personal.json";
        EnvRead "GOOGLE_TOKEN_PERSONAL"; Print (authorize_msg "personal");
        FileRead "credentials.json"; Authorize]).
Proof.
  apply (get_credentials_grant_fails (ext := declined)
           "personal" "token_personal.json" "GOOGLE_TOKEN_PERSONAL" "secrets" None
           (LibraryError "AccessDenied") bare_world (after_load bare_world false)).
  - reflexivity.
  - reflexivity.
  - vm_compute; reflexivity.
  - exact I.
  - vm_compute; reflexivity.
  - vm_compute; reflexivity.
  - reflexivity.
Defined.

Lemma get_credentials_no_client_secrets_witness :
  get_credentials (ext := sample) "personal" empty_world
  = (Raise (FileNotFoundError "credentials.json"),
     mkWorld ∅ ∅
       [EnvRead "GOOGLE_TOKEN_PERSONAL"; FileExists "token_personal.json";
        EnvRead "GOOGLE_TOKEN_PERSONAL"; Print (authorize_msg "personal");
        FileRead "credentials.json"]).
Proof.
  apply (get_credentials_no_client_secrets (ext := sample)
           "personal" "token_personal.json" "GOOGLE_TOKEN_PERSONAL" None
           empty_world (after_load empty_world false)).
  - reflexivity.
  - reflexivity.
  - vm_compute; reflexivity.
  - exact I.
  - vm_compute; reflexivity.
  - vm_compute; reflexivity.
Defined.

Lemma get_credentials_refresh_again_witness :
  exists w2,
    get_credentials (ext := sample) "personal"
      (snd (get_credentials (ext := sample) "personal" (local_world "B")))
    = (Return tok_fresh, log (Refresh tok_stale) w2).
Proof.
  apply (get_credentials_refresh_again (ext := sample)
           "personal" "token_personal.json" tok_stale (local_world "B")
           (after_load (local_world "B") true)).
  - reflexivity.
  - vm_compute; reflexivity.
  - reflexivity.
  - reflexivity.
Defined.


(** ** Tools and credentials *)

Section ToolErrors.
Context {ext : Externals}.

(** When the credentials cannot be resolved, each of these four tools
    raises the error of [get_credentials] and stops in the world it left:
    no request is sent. *)
Theorem tools_stop_without_credentials (account : string) (e : exn) (w w1 : World) :
  get_credentials account w = (Raise e, w1) ->
  (forall query max_results,
      gmail_search query max_results account w = (Raise e, w1)) /\
  (forall thread_id,
      gmail_read_thread thread_id account w = (Raise e, w1)) /\
  (forall summary start end_ calendar_id description location timezone,
      calendar_create_event summary start end_ calendar_id description location
        timezone account w = (Raise e, w1)) /\
  (forall event_id calendar_id summary start end_ description location timezone,
      calendar_update_event event_id calendar_id summary start end_ description location
        timezone account w = (Raise e, w1)).
Proof.
  intros Hc. repeat apply conj; intros;
    unfold gmail_search, gmail_read_thread, calendar_create_event, calendar_update_event,
      get_gmail, get_calendar; unfold bind at 1; now rewrite Hc.
Qed.

End ToolErrors.

Lemma tools_stop_without_credentials_witness :
  gmail_search (ext := sample) "is:unread" 10 "home" deployed_world
  = (Raise (ValueError (unknown_account_msg "home")), deployed_world) /\
  calendar_update_event (ext := sample) "e1" "primary" None None None None (Some "") "UTC"
    "personal" deployed_world
  = (Raise (RuntimeError (deployed_msg "personal")),
     mkWorld (environ deployed_world) (files deployed_world)
       [EnvRead "GOOGLE_TOKEN_PERSONAL"; EnvRead "GOOGLE_TOKEN_PERSONAL";
        EnvRead "GOOGLE_TOKEN_PERSONAL"]).
Proof.
  split.
  - refine (proj1 (tools_stop_without_credentials (ext := sample) "home" _
                     deployed_world deployed_world _) _ _).
    reflexivity.
  - refine (proj2 (proj2 (proj2 (tools_stop_without_credentials (ext := sample) "personal" _
                     deployed_world _ _))) _ _ _ _ _ _ _ _).
    vm_compute; reflexivity.
Defined.

(** ** Searching, request by request *)

Section SearchRequests.
Context {ext : Externals}.

Lemma for_each_rows (c : Credentials) (rows : list search_row) (rest : list json) (w : World) :
  Forall (row_ok c) rows ->
  for_each (search_entry c) (map row_msg rows ++ rest) w
  = (let (o, w') :=
       for_each (search_entry c) rest
         (mkWorld (environ w) (files w)
            (trace w ++ map (fun r => ServiceCall c (MessagesGetMetadata (row_id r))) rows)) in
     (match o with
      | Return out => Return (map row_out rows ++ out)
      | Raise e => Raise e
      end, w')).
Proof.
  intros Hrows. revert w.
  induction Hrows as [|r rows (Hid & Hex & Ho) _ IH]; intros w.
  - cbn [map app]. rewrite app_nil_r.
    replace (mkWorld (environ w) (files w) (trace w)) with w by now destruct w.
    destruct (for_each (search_entry c) rest w) as [[e|out] w']; reflexivity.
  - cbn [map app for_each]. unfold bind at 1.
    rewrite (search_entry_run c (row_msg r) (row_id r) (row_detail r) (row_out r) w Hid Hex Ho).
    unfold bind at 1. rewrite IH. unfold log. cbn [environ files trace].
    rewrite <- app_assoc. cbn [app].
    destruct (for_each (search_entry c) rest _) as [[e|out] w']; reflexivity.
Qed.

(** A search whose steps all succeed sends the list request and then one
    metadata request per message, in the order of the messages, and nothing
    else; its result is the dump of the entries in the same order. *)
Theorem gmail_search_requests (query : string) (max_results : Z) (account : string)
    (w w1 : World) (c : Credentials) (results : json) (r0 : search_row)
    (rows : list search_row) :
  get_gmail account w = (Return c, w1) ->
  execute c (MessagesList query max_results) = Return results ->
  py_get results "messages" (JArr []) = Return (JArr (map row_msg (r0 :: rows))) ->
  Forall (row_ok c) (r0 :: rows) ->
  gmail_search query max_results account w
  = (Return (json_dumps 2 (JArr (map row_out (r0 :: rows)))),
     mkWorld (environ w1) (files w1)
       (trace w1 ++ ServiceCall c (MessagesList query max_results)
          :: map (fun r => ServiceCall c (MessagesGetMetadata (row_id r))) (r0 :: rows))).
Proof.
  intros Hc Hlist Hm Hrows.
  unfold gmail_search, call, bind, emit, lift, ret.
  rewrite Hc. cbv beta iota. rewrite Hlist. cbv beta iota. rewrite Hm. cbv beta iota.
  cbn [json_truthy map negb py_iter].
  pose proof (for_each_rows c (r0 :: rows) []
                (log (ServiceCall c (MessagesList query max_results)) w1) Hrows) as Hrun.
  rewrite app_nil_r in Hrun. cbn [map] in Hrun. rewrite Hrun.
  cbn [for_each]. unfold ret, log. cbn [environ files trace].
  rewrite app_nil_r, <- app_assoc. reflexivity.
Qed.

(** A message without an [id] stops the search: the [KeyError] is raised
    before any request for that message, the messages after it are not
    looked at, and the entries already made are lost. *)
Theorem gmail_search_stops_at_bad_message (query : string) (max_results : Z)
    (account : string) (w w1 : World) (c : Credentials) (results : json)
    (rows : list search_row) (bad : json) (later : list json) (e : exn) :
  get_gmail account w = (Return c, w1) ->
  execute c (MessagesList query max_results) = Return results ->
  py_get results "messages" (JArr [])
  = Return (JArr (map row_msg rows ++ bad :: later)) ->
  Forall (row_ok c) rows ->
  py_index bad "id" = Raise e ->
  gmail_search query max_results account w
  = (Raise e,
     mkWorld (environ w1) (files w1)
       (trace w1 ++ ServiceCall c (MessagesList query max_results)
          :: map (fun r => ServiceCall c (MessagesGetMetadata (row_id r))) rows)).
Proof.
  intros Hc Hlist Hm Hrows Hbad.
  unfold gmail_search, call, bind, emit, lift, ret.
  rewrite Hc. cbv beta iota. rewrite Hlist. cbv beta iota. rewrite Hm. cbv beta iota.
  assert (Ht : json_truthy (JArr (map row_msg rows ++ bad :: later)) = true)
    by (cbn; now destruct (map row_msg rows)).
  rewrite Ht. cbn [negb py_iter].
  rewrite (for_each_rows c rows (bad :: later)
             (log (ServiceCall c (MessagesList query max_results)) w1) Hrows).
  cbn [for_each]. unfold bind at 1. unfold search_entry at 1.
  unfold bind at 1, lift at 1. rewrite Hbad.
  unfold log. cbn [environ files trace]. now rewrite <- app_assoc.
Qed.

End SearchRequests.

Lemma gmail_search_requests_witness :
  gmail_search (ext := sample) "is:unread" 10 "personal" (local_world "V")
  = (Return (json_dumps (Externals := sample) 2 (JArr [sample_entry "m1"; sample_entry "m2"])),
     mkWorld ∅ (files (local_world "V"))
       [EnvRead "GOOGLE_TOKEN_PERSONAL"; FileExists "token_personal.json";
        FileRead "token_personal.json";
        ServiceCall tok_live (MessagesList "is:unread" 10);
        ServiceCall tok_live (MessagesGetMetadata (JStr "m1"));
        ServiceCall tok_live (MessagesGetMetadata (JStr "m2"))]).
Proof.
  apply (gmail_search_requests (ext := sample) "is:unread" 10 "personal" (local_world "V")
           (after_load (local_world "V") true) tok_live
           (JObj [("messages", JArr [sample_message "m1"; sample_message "m2"])])
           (sample_row "m1") [sample_row "m2"]).
  - vm_compute; reflexivity.
  - reflexivity.
  - reflexivity.
  - repeat constructor.
Defined.

Lemma gmail_search_stops_at_bad_message_witness :
  gmail_search (ext := broken) "is:unread" 10 "personal" (local_world "V")
  = (Raise (KeyError "id"),
     mkWorld ∅ (files (local_world "V"))
       [EnvRead "GOOGLE_TOKEN_PERSONAL"; FileExists "token_personal.json";
        FileRead "token_personal.json";
        ServiceCall tok_live (MessagesList "is:unread" 10);
        ServiceCall tok_live (MessagesGetMetadata (JStr "m1"))]).
Proof.
  apply (gmail_search_stops_at_bad_message (ext := broken) "is:unread" 10 "personal"
           (local_world "V") (after_load (local_world "V") true) tok_live
           (JObj [("messages", JArr [sample_message "m1"; JObj [("threadId", JStr "t9")];
                                     sample_message "m2"])])
           [sample_row "m1"] (JObj [("threadId", JStr "t9")]) [sample_message "m2"]
           (KeyError "id")).
  - vm_compute; reflexivity.
  - reflexivity.
  - reflexivity.
  - repeat constructor.
  - reflexivity.
Defined.

(** ** Headers *)

Lemma omap_app {A B} (f : A -> outcome B) (l1 l2 : list A) :
  omap f (l1 ++ l2)
  = (x <~ omap f l1 ;; y <~ omap f l2 ;; Return (x ++ y)).
Proof.
  induction l1 as [|a l1 IH]; cbn [omap app obind].
  - destruct (omap f l2); reflexivity.
  - destruct (f a) as [e|b]; cbn [obind]; [reflexivity|].
    rewrite IH. destruct (omap f l1) as [e|x]; cbn [obind]; [reflexivity|].
    destruct (omap f l2); reflexivity.
Qed.

Lemma headers_get_last (headers : list (json * json)) (name : string) (v default : json) :
  headers_get (headers ++ [(JStr name, v)]) name default = v.
Proof.
  revert default. induction headers as [|[k x] headers IH]; intros default.
  - cbn. now rewrite String.eqb_refl.
  - cbn [app headers_get]. apply IH.
Qed.

Lemma headers_get_app (h1 h2 : list (json * json)) (name : string) (default : json) :
  headers_get (h1 ++ h2) name default = headers_get h2 name (headers_get h1 name default).
Proof.
  revert default. induction h1 as [|[k x] h1 IH]; intros default; [reflexivity|].
  cbn [app headers_get]. apply IH.
Qed.

Lemma headers_get_absent (headers : list (json * json)) (name : string) (default : json) :
  Forall (fun kv => is_str (fst kv) name = false) headers ->
  headers_get headers name default = default.
Proof.
  intros Hno. revert default.
  induction Hno as [|[k x] headers Hk _ IH]; intros default; [reflexivity|].
  cbn [headers_get]. cbn [fst] in Hk. rewrite Hk. apply IH.
Qed.

Lemma headers_of_occurrence (payload : list (string * json)) (pre post : list json)
    (seen later : list (json * json)) (name : string) (v : json) :
  dict_get payload "headers" = Some (JArr (pre ++ header name v :: post)) ->
  omap header_pair pre = Return seen ->
  omap header_pair post = Return later ->
  Forall (fun kv => is_str (fst kv) name = false) later ->
  headers_of (JObj payload) = Return (seen ++ (JStr name, v) :: later) /\
  forall default, headers_get (seen ++ (JStr name, v) :: later) name default = v.
Proof.
  intros Hh Hseen Hlater Hno. split.
  - unfold headers_of. cbn [py_get obind]. rewrite Hh. cbn [py_iter obind].
    rewrite omap_app, Hseen. cbn [obind omap]. unfold header at 1.
    cbn [header_pair py_index dict_get String.eqb Ascii.eqb Bool.eqb obind].
    now rewrite Hlater.
  - intros default. rewrite headers_get_app. cbn [headers_get is_str].
    rewrite String.eqb_refl. now apply headers_get_absent.
Qed.

Section HeaderFacts.
Context {ext : Externals}.

(** When a header name occurs more than once in a payload, the value
    reported for it is that of its last occurrence, wherever that stands in
    the list: given an occurrence of [From], [To], [Subject] or [Date] that
    no later header repeats, the headers dict holds its value, the entry of
    [gmail_search] reports it (for the three names it reports), and so does
    the entry of [gmail_read_thread]. *)
Theorem headers_last_wins (payload : list (string * json)) (pre post : list json)
    (seen later : list (json * json)) (name field : string) (v : json) :
  In (name, field) [("From", "from"); ("To", "to"); ("Subject", "subject"); ("Date", "date")] ->
  dict_get payload "headers" = Some (JArr (pre ++ header name v :: post)) ->
  omap header_pair pre = Return seen ->
  omap header_pair post = Return later ->
  Forall (fun kv => is_str (fst kv) name = false) later ->
  (exists headers,
      headers_of (JObj payload) = Return headers /\
      forall default, headers_get headers name default = v) /\
  (name <> "To" ->
   forall msg detail id threadId,
     py_index msg "id" = Return id ->
     py_index msg "threadId" = Return threadId ->
     dict_get detail "payload" = Some (JObj payload) ->
     exists entry,
       search_output msg (JObj detail) = Return (JObj entry) /\
       dict_get entry field = Some v) /\
  (forall msg id body,
     py_get msg "payload" (JObj []) = Return (JObj payload) ->
     extract_body payload = Return body ->
     py_index msg "id" = Return id ->
     exists entry,
       thread_entry msg = Return (JObj entry) /\
       dict_get entry field = Some v).
Proof.
  intros Hin Hh Hseen Hlater Hno.
  destruct (headers_of_occurrence payload pre post seen later name v Hh Hseen Hlater Hno)
    as [Hof Hget].
  repeat apply conj.
  - eauto.
  - intros Hto msg detail id threadId Hid Htid Hp.
    unfold search_output. cbn [py_get obind]. rewrite Hp. cbn [obind].
    rewrite Hof. cbn [obind]. rewrite Hid, Htid. cbn [obind].
    eexists. split; [reflexivity|].
    cbn [In] in Hin.
    destruct Hin as [[= <- <-]|[[= <- <-]|[[= <- <-]|[[= <- <-]|[]]]]];
      try contradiction; cbn [dict_get String.eqb Ascii.eqb Bool.eqb]; now rewrite Hget.
  - intros msg id body Hp Hb Hid.
    unfold thread_entry. rewrite Hp. cbn [obind]. rewrite Hof. cbn [obind].
    rewrite Hb. cbn [obind]. rewrite Hid. cbn [obind].
    eexists. split; [reflexivity|].
    cbn [In] in Hin.
    destruct Hin as [[= <- <-]|[[= <- <-]|[[= <- <-]|[[= <- <-]|[]]]]];
      cbn [dict_get String.eqb Ascii.eqb Bool.eqb]; now rewrite Hget.
Qed.

End HeaderFacts.

Lemma headers_last_wins_witness :
  let payload :=
    [("headers",
      JArr [header "From" (JStr "a@example.com"); header "From" (JStr "b@example.com");
            header "To" (JStr "c@example.com")])] in
  (exists entry,
      search_output (sample_message "m1") (JObj [("payload", JObj payload)])
      = Return (JObj entry) /\
      dict_get entry "from" = Some (JStr "b@example.com")) /\
  (exists entry,
      thread_entry (ext := sample) (JObj [("id", JStr "m1"); ("payload", JObj payload)])
      = Return (JObj entry) /\
      dict_get entry "from" = Some (JStr "b@example.com")).
Proof.
  cbv zeta.
  destruct (headers_last_wins (ext := sample)
              [("headers",
                JArr [header "From" (JStr "a@example.com"); header "From" (JStr "b@example.com");
                      header "To" (JStr "c@example.com")])]
              [header "From" (JStr "a@example.com")] [header "To" (JStr "c@example.com")]
              [(JStr "From", JStr "a@example.com")] [(JStr "To", JStr "c@example.com")]
              "From" "from" (JStr "b@example.com"))
    as (_ & Hsearch & Hthread).
  - left. reflexivity.
  - reflexivity.
  - reflexivity.
  - reflexivity.
  - repeat constructor.
  - split.
    + apply (Hsearch ltac:(discriminate) (sample_message "m1")
               [("payload", JObj [("headers",
                  JArr [header "From" (JStr "a@example.com");
                        header "From" (JStr "b@example.com");
                        header "To" (JStr "c@example.com")])])]
               (JStr "m1") (JStr "tm1")); reflexivity.
    + apply (Hthread (JObj [("id", JStr "m1"); ("payload", JObj [("headers",
                  JArr [header "From" (JStr "a@example.com");
                        header "From" (JStr "b@example.com");
                        header "To" (JStr "c@example.com")])])])
               (JStr "m1") ""); reflexivity.
Defined.

(** Metadata without a payload, or with a payload without headers, still
    gives an entry: sender, subject and date are the empty string, and so is
    a missing snippet. *)
Theorem search_output_without_headers (msg : json) (detail : list (string * json))
    (id threadId : json) :
  py_index msg "id" = Return id ->
  py_index msg "threadId" = Return threadId ->
  dict_get detail "payload" = None \/
  (exists payload, dict_get detail "payload" = Some (JObj payload) /\
                   dict_get payload "headers" = None) ->
  search_output msg (JObj detail)
  = Return (JObj [ ("id", id);
                   ("threadId", threadId);
                   ("from", JStr "");
                   ("subject", JStr "");
                   ("date", JStr "");
                   ("snippet", match dict_get detail "snippet" with
                               | Some s => s
                               | None => JStr ""
                               end) ]).
Proof.
  intros Hid Htid Hp. unfold search_output, headers_of. cbn [py_get obind].
  destruct Hp as [-> | (payload & -> & Hh)]; cbn [py_get dict_get obind].
  - cbn [py_iter obind omap]. now rewrite Hid, Htid.
  - rewrite Hh. cbn [py_iter obind omap]. now rewrite Hid, Htid.
Qed.

Lemma search_output_without_headers_witness :
  search_output (sample_message "m1") (JObj [("id", JStr "m1")])
  = Return (JObj [ ("id", JStr "m1"); ("threadId", JStr "tm1"); ("from", JStr "");
                   ("subject", JStr ""); ("date", JStr ""); ("snippet", JStr "") ]).
Proof.
  apply (search_output_without_headers (sample_message "m1") [("id", JStr "m1")]
           (JStr "m1") (JStr "tm1")).
  - reflexivity.
  - reflexivity.
  - left. reflexivity.
Defined.

(** ** Bodies *)

Lemma slice_to_prefix (n : nat) (s : string) :
  exists rest, s = String.append (slice_to n s) rest.
Proof.
  unfold slice_to. revert s.
  induction n as [|n IH]; intros [|c s]; cbn.
  - now exists "".
  - now exists (String c s).
  - now exists "".
  - destruct (IH s) as [rest Hrest]. exists rest.
    change (String c s = String c (String.append (substring 0 n s) rest)).
    now rewrite <- Hrest.
Qed.

Section BodyFacts.
Context {ext : Externals}.

(** Every entry [thread_entry] returns carries a [body] that is a text of
    at most 5000 characters, and that text is the beginning of the body
    extracted from the message's payload. *)
Theorem thread_entry_body_bound (msg entry : json) :
  thread_entry msg = Return entry ->
  exists fields body payload full rest,
    entry = JObj fields /\
    dict_get fields "body" = Some (JStr body) /\
    String.length body <= 5000 /\
    py_get msg "payload" (JObj []) = Return (JObj payload) /\
    extract_body payload = Return full /\
    full = String.append body rest.
Proof.
  unfold thread_entry.
  destruct (py_get msg "payload" (JObj [])) as [e|payload]; cbn [obind]; [discriminate|].
  destruct (headers_of payload) as [e|headers]; cbn [obind]; [discriminate|].
  destruct payload as [| | | | |pd]; try discriminate.
  destruct (extract_body pd) as [e|full] eqn:Hfull; cbn [obind]; [discriminate|].
  destruct (py_index msg "id") as [e|id]; cbn [obind]; [discriminate|].
  intros [= <-]. destruct (slice_to_prefix 5000 full) as [rest Hrest].
  eexists. exists (slice_to 5000 full), pd, full, rest. repeat apply conj.
  - reflexivity.
  - reflexivity.
  - rewrite slice_to_length. apply Nat.le_min_l.
  - reflexivity.
  - exact Hfull.
  - exact Hrest.
Qed.

Lemma scan_parts_no_plain_text (parts : list json) :
  Forall well_formed_part parts ->
  Forall (fun p => is_plain_text p = false) parts ->
  scan_parts parts = Return "".
Proof.
  intros Hwf Hno. rewrite (scan_parts_find parts Hwf).
  replace (List.find usable_part parts) with (@None json); [reflexivity|].
  symmetry. induction Hno as [|p parts Hp _ IH]; [reflexivity|].
  inversion Hwf; subst. cbn [List.find]. unfold usable_part. rewrite Hp. cbn [andb]. auto.
Qed.

(** A message without inline body data and without a [text/plain] part
    (no parts at all, or parts of other types only, such as an HTML-only
    message) has the empty body. *)
Theorem extract_body_without_plain_text (pd : list (string * json)) (direct : json) :
  direct_data pd = Return direct ->
  json_truthy direct = false ->
  dict_get pd "parts" = None \/
  (exists parts, dict_get pd "parts" = Some (JArr parts) /\
                 Forall well_formed_part parts /\
                 Forall (fun p => is_plain_text p = false) parts) ->
  extract_body pd = Return "".
Proof.
  intros Hd Hf Hp. unfold extract_body. rewrite Hd. cbn [obind]. rewrite Hf.
  destruct Hp as [-> | (parts & -> & Hwf & Hno)]; [reflexivity|].
  cbn [py_iter obind]. now apply scan_parts_no_plain_text.
Qed.

End BodyFacts.

Lemma thread_entry_body_bound_witness :
  exists fields body payload full rest,
    JObj [ ("id", JStr "m1"); ("from", JStr ""); ("to", JStr ""); ("subject", JStr "");
           ("date", JStr ""); ("body", JStr "aGk") ] = JObj fields /\
    dict_get fields "body" = Some (JStr body) /\
    String.length body <= 5000 /\
    py_get (JObj [("id", JStr "m1"); ("payload", JObj mixed_payload)]) "payload" (JObj [])
    = Return (JObj payload) /\
    extract_body (ext := sample) payload = Return full /\
    full = String.append body rest.
Proof.
  apply (thread_entry_body_bound (ext := sample)
           (JObj [("id", JStr "m1"); ("payload", JObj mixed_payload)])).
  reflexivity.
Defined.

Lemma extract_body_without_plain_text_witness :
  extract_body (ext := sample)
    [ ("mimeType", JStr "multipart/alternative");
      ("parts", JArr [JObj [("mimeType", JStr "text/html");
                            ("body", JObj [("data", JStr "PGI-")])]]) ]
  = Return "".
Proof.
  apply (extract_body_without_plain_text (ext := sample) _ (JBool false)).
  - reflexivity.
  - reflexivity.
  - right. eexists. split; [reflexivity|]. split; repeat constructor.
    eexists. split; [reflexivity|]. right. eexists. reflexivity.
Defined.

(** ** Requests of the calendar and thread tools, on the samples *)

Lemma calendar_create_event_request_witness :
  snd (calendar_create_event (ext := sample) "Standup" "2025-01-20T09:00:00"
         "2025-01-20T09:15:00" "primary" None (Some "") "UTC" "personal" (local_world "V"))
  = log (ServiceCall tok_live (EventsInsert "primary"
           (JObj [ ("summary", JStr "Standup");
                   ("start", JObj [("dateTime", JStr "2025-01-20T09:00:00");
                                   ("timeZone", JStr "UTC")]);
                   ("end", JObj [("dateTime", JStr "2025-01-20T09:15:00");
                                 ("timeZone", JStr "UTC")]) ])))
        (after_load (local_world "V") true).
Proof.
  apply (calendar_create_event_request (ext := sample) "Standup" "2025-01-20T09:00:00"
           "2025-01-20T09:15:00" "primary" None (Some "") "UTC" "personal"
           (local_world "V") (after_load (local_world "V") true) tok_live).
  vm_compute; reflexivity.
Defined.

Lemma calendar_update_event_request_witness :
  snd (calendar_update_event (ext := sample) "e1" "primary" None None None None (Some "")
         "UTC" "personal" (local_world "V"))
  = log (ServiceCall tok_live (EventsUpdate "primary" "e1"
           (JObj [("id", JStr "e1"); ("location", JStr "")])))
        (log (ServiceCall tok_live (EventsGet "primary" "e1"))
           (after_load (local_world "V") true)).
Proof.
  apply (calendar_update_event_request (ext := sample) "e1" "primary" None None None None
           (Some "") "UTC" "personal" (local_world "V") (after_load (local_world "V") true)
           tok_live (JObj [("id", JStr "e1"); ("location", JStr "A")])).
  - vm_compute; reflexivity.
  - reflexivity.
  - reflexivity.
Defined.

Lemma gmail_read_thread_entries_witness :
  gmail_read_thread (ext := sample) "t1" "personal" (local_world "V")
  = (Return (json_dumps (Externals := sample) 2 (JArr [])),
     log (ServiceCall tok_live (ThreadsGetFull "t1")) (after_load (local_world "V") true)).
Proof.
  apply (gmail_read_thread_entries (ext := sample) "t1" "personal" (local_world "V")
           (after_load (local_world "V") true) tok_live (JObj []) (JArr []) [] []).
  - vm_compute; reflexivity.
  - reflexivity.
  - reflexivity.
  - reflexivity.
  - reflexivity.
Defined.

(** ** Shape of the event bodies *)

(** A created event has the keys [summary], [start], [end], then
    [description] and [location] when they are non-empty texts: an empty
    description or location is left out, as an omitted one is. *)
Theorem create_event_body_keys (summary start end_ : string)
    (description location : option string) (timezone : string) :
  map fst (create_event_body summary start end_ description location timezone)
  = ["summary"; "start"; "end"]
      ++ (if truthy description then ["description"] else [])
      ++ (if truthy location then ["location"] else []).
Proof.
  unfold create_event_body.
  destruct description as [de|]; cbn [truthy]; [destruct (truthy_str de)|];
  (destruct location as [lo|]; cbn [truthy]; [destruct (truthy_str lo)|]);
  reflexivity.
Qed.

Lemma dict_set_same {V} (d : list (string * V)) (k : string) (v : V) :
  dict_get d k = Some v -> dict_set d k v = d.
Proof.
  induction d as [|[k0 v0] d IH]; cbn [dict_get dict_set]; [discriminate|].
  destruct (String.eqb_spec k0 k) as [->|Hne].
  - now intros [= ->].
  - intros H. now rewrite IH.
Qed.

Lemma set_if_same (o : option json) (k : string) (d : list (string * json)) :
  match o with Some v => dict_get d k = Some v | None => True end ->
  set_if o k d = d.
Proof. destruct o; cbn [set_if]; [apply dict_set_same | reflexivity]. Qed.

(** Sending the same update twice changes nothing more: applied to its
    own result, [update_event_body] returns that result. *)
Theorem update_event_body_idempotent (d : list (string * json))
    (summary start end_ description location : option string) (timezone : string)
    (event' : json) :
  update_event_body (JObj d) summary start end_ description location timezone
  = Return event' ->
  update_event_body event' summary start end_ description location timezone
  = Return event'.
Proof.
  rewrite update_event_body_dict. intros [= <-].
  rewrite update_event_body_dict. do 2 f_equal.
  set (o1 := if_truthy JStr summary).
  set (o2 := JStr <$> description).
  set (o3 := JStr <$> location).
  set (o4 := if_truthy (stamp timezone) start).
  set (o5 := if_truthy (stamp timezone) end_).
  set (D := set_if o5 "end" (set_if o4 "start" (set_if o3 "location"
              (set_if o2 "description" (set_if o1 "summary" d))))).
  assert (H1 : set_if o1 "summary" D = D).
  { apply set_if_same. unfold D. rewrite !dict_get_set_if.
    destruct o1, o2, o3, o4, o5; try reflexivity; exact I. }
  assert (H2 : set_if o2 "description" D = D).
  { apply set_if_same. unfold D. rewrite !dict_get_set_if.
    destruct o1, o2, o3, o4, o5; try reflexivity; exact I. }
  assert (H3 : set_if o3 "location" D = D).
  { apply set_if_same. unfold D. rewrite !dict_get_set_if.
    destruct o1, o2, o3, o4, o5; try reflexivity; exact I. }
  assert (H4 : set_if o4 "start" D = D).
  { apply set_if_same. unfold D. rewrite !dict_get_set_if.
    destruct o1, o2, o3, o4, o5; try reflexivity; exact I. }
  assert (H5 : set_if o5 "end" D = D).
  { apply set_if_same. unfold D. rewrite !dict_get_set_if.
    destruct o1, o2, o3, o4, o5; try reflexivity; exact I. }
  now rewrite H1, H2, H3, H4, H5.
Qed.

Lemma update_event_body_idempotent_witness :
  update_event_body
    (JObj [("id", JStr "e1"); ("location", JStr "B");
           ("end", JObj [("date", JStr "2025-01-21"); ("timeZone", JStr "UTC")])])
    None None (Some "2025-01-21") None (Some "B") "UTC"
  = Return
    (JObj [("id", JStr "e1"); ("location", JStr "B");
           ("end", JObj [("date", JStr "2025-01-21"); ("timeZone", JStr "UTC")])]).
Proof.
  apply (update_event_body_idempotent [("id", JStr "e1"); ("location", JStr "A")]
           None None (Some "2025-01-21") None (Some "B") "UTC").
  reflexivity.
Defined.

(** In an update the [end] field is stamped by the length of [end] itself,
    whatever [start] is: 10 characters give a [date] field, any other
    non-empty text a [dateTime] field. *)
Theorem update_event_body_end_by_own_length (d : list (string * json))
    (summary start description location : option string) (end_ timezone : string) :
  end_ <> "" ->
  exists d',
    update_event_body (JObj d) summary start (Some end_) description location timezone
    = Return (JObj d') /\
    dict_get d' "end"
    = Some (if Nat.eqb (String.length end_) 10
            then JObj [("date", JStr end_); ("timeZone", JStr timezone)]
            else JObj [("dateTime", JStr end_); ("timeZone", JStr timezone)]).
Proof.
  intros Hne. eexists. split; [apply update_event_body_dict|].
  rewrite dict_get_set_if.
  change (if_truthy (stamp timezone) (Some end_))
    with (if truthy_str end_ then Some (stamp timezone end_) else None).
  rewrite (truthy_str_true end_ Hne). reflexivity.
Qed.

Lemma update_event_body_end_by_own_length_witness :
  exists d',
    update_event_body (JObj [("id", JStr "e1")]) None (Some "2025-01-20T10:00:00")
      (Some "2025-01-21") None None "UTC"
    = Return (JObj d') /\
    dict_get d' "end" = Some (JObj [("date", JStr "2025-01-21"); ("timeZone", JStr "UTC")]).
Proof.
  apply (update_event_body_end_by_own_length [("id", JStr "e1")] None
           (Some "2025-01-20T10:00:00") None None "2025-01-21" "UTC").
  discriminate.
Defined.

Lemma dict_set_keys {V} (d : list (string * V)) (k : string) (v : V) :
  map fst (dict_set d k v)
  = match dict_get d k with
    | Some _ => map fst d
    | None => map fst d ++ [k]
    end.
Proof.
  induction d as [|[k0 v0] d IH]; cbn [dict_get dict_set map fst app]; [reflexivity|].
  destruct (String.eqb_spec k0 k) as [->|Hne]; cbn [map fst]; [reflexivity|].
  rewrite IH. now destruct (dict_get d k).
Qed.

Lemma dict_get_None_not_in {V} (d : list (string * V)) (k : string) :
  dict_get d k = None -> ~ In k (map fst d).
Proof.
  induction d as [|[k0 v0] d IH]; cbn [dict_get map fst In]; [tauto|].
  destruct (String.eqb_spec k0 k) as [->|Hne]; [discriminate|].
  intros H [Heq|Hin]; [contradiction | now apply IH].
Qed.

Lemma set_if_keys (o : option json) (k : string) (d : list (string * json)) :
  (exists extra, map fst (set_if o k d) = map fst d ++ extra) /\
  (NoDup (map fst d) -> NoDup (map fst (set_if o k d))).
Proof.
  destruct o as [v|]; cbn [set_if].
  - rewrite dict_set_keys. destruct (dict_get d k) eqn:Hk.
    + split; [exists []; now rewrite app_nil_r | auto].
    + split; [now exists [k]|].
      intros Hnd. apply NoDup_app. repeat split; [exact Hnd| |apply NoDup_singleton].
      intros x Hx Hx'. apply list_elem_of_In in Hx. apply list_elem_of_In in Hx'.
      destruct Hx' as [<-|[]]. now apply (dict_get_None_not_in d k).
  - split; [exists []; now rewrite app_nil_r | auto].
Qed.

(** An update drops and reorders nothing: the keys of the event come
    first, in their order, followed by the keys the update adds; and keys
    that were distinct stay distinct. *)
Theorem update_event_body_keeps_keys (d d' : list (string * json))
    (summary start end_ description location : option string) (timezone : string) :
  update_event_body (JObj d) summary start end_ description location timezone
  = Return (JObj d') ->
  (exists added, map fst d' = map fst d ++ added) /\
  (NoDup (map fst d) -> NoDup (map fst d')).
Proof.
  rewrite update_event_body_dict. intros [= <-].
  repeat match goal with
  | |- context [set_if ?o ?k ?x] =>
      lazymatch x with
      | context [set_if] => fail
      | _ => let E := fresh "E" in let N := fresh "N" in
             destruct (set_if_keys o k x) as [[? E] N];
             generalize dependent (set_if o k x); intros
      end
  end.
  split.
  - repeat match goal with H : map fst _ = _ |- _ => rewrite H; clear H end.
    rewrite <- !app_assoc. eauto.
  - auto 10.
Qed.

Lemma update_event_body_keeps_keys_witness :
  (exists added,
      map fst [("id", JStr "e1"); ("location", JStr "B");
               ("end", JObj [("date", JStr "2025-01-21"); ("timeZone", JStr "UTC")])]
      = map fst [("id", JStr "e1"); ("location", JStr "A")] ++ added) /\
  (NoDup (map fst [("id", JStr "e1"); ("location", JStr "A")]) ->
   NoDup (map fst [("id", JStr "e1"); ("location", JStr "B");
                   ("end", JObj [("date", JStr "2025-01-21"); ("timeZone", JStr "UTC")])])).
Proof.
  apply (update_event_body_keeps_keys [("id", JStr "e1"); ("location", JStr "A")] _
           None None (Some "2025-01-21") None (Some "B") "UTC").
  reflexivity.
Defined.

(** ** Listing events *)

(** The arguments of the list request always ask for expanded single
    events ordered by start time, with the calendar and the bound given; a
    time limit or a query is passed on only when it is a non-empty text. *)
Theorem list_events_kwargs_lookup (calendar_id : string) (time_min time_max : option string)
    (max_results : Z) (query : option string) :
  let kwargs := list_events_kwargs calendar_id time_min time_max max_results query in
  dict_get kwargs "calendarId" = Some (JStr calendar_id) /\
  dict_get kwargs "maxResults" = Some (JNum max_results) /\
  dict_get kwargs "singleEvents" = Some (JBool true) /\
  dict_get kwargs "orderBy" = Some (JStr "startTime") /\
  dict_get kwargs "timeMin" = (if truthy time_min then JStr <$> time_min else None) /\
  dict_get kwargs "timeMax" = (if truthy time_max then JStr <$> time_max else None) /\
  dict_get kwargs "q" = (if truthy query then JStr <$> query else None).
Proof.
  cbv zeta. unfold list_events_kwargs.
  destruct time_min as [t1|]; cbn [truthy]; [destruct (truthy_str t1)|];
  (destruct time_max as [t2|]; cbn [truthy]; [destruct (truthy_str t2)|]);
  (destruct query as [q|]; cbn [truthy]; [destruct (truthy_str q)|]);
  repeat split.
Qed.

(** The time reported for an event is its [dateTime] when that is present
    and non-empty, its [date] when there is no [dateTime] (an all-day event),
    and [None] when the event has no such field at all. *)
Theorem event_time_prefers_date_time (e : list (string * json)) (key : string) :
  (forall t v, dict_get e key = Some (JObj t) ->
               dict_get t "dateTime" = Some v ->
               json_truthy v = true ->
               event_time (JObj e) key = Return v) /\
  (forall t v, dict_get e key = Some (JObj t) ->
               dict_get t "dateTime" = None ->
               dict_get t "date" = Some v ->
               event_time (JObj e) key = Return v) /\
  (dict_get e key = None -> event_time (JObj e) key = Return JNull).
Proof.
  unfold event_time. repeat apply conj.
  - intros t v He Hdt Hv. cbn [py_get obind]. rewrite He. cbn [py_get obind].
    now rewrite Hdt, Hv.
  - intros t v He Hdt Hd. cbn [py_get obind]. rewrite He. cbn [py_get obind].
    rewrite Hdt. cbn [json_truthy]. now rewrite Hd.
  - intros He. cbn [py_get obind]. now rewrite He.
Qed.

Lemma event_time_prefers_date_time_witness :
  event_time
    (JObj [("id", JStr "e1");
           ("start", JObj [("date", JStr "2025-01-20");
                           ("dateTime", JStr "2025-01-20T10:00:00Z")]);
           ("end", JObj [("date", JStr "2025-01-21")])]) "start"
  = Return (JStr "2025-01-20T10:00:00Z") /\
  event_time
    (JObj [("id", JStr "e1");
           ("start", JObj [("date", JStr "2025-01-20");
                           ("dateTime", JStr "2025-01-20T10:00:00Z")]);
           ("end", JObj [("date", JStr "2025-01-21")])]) "end"
  = Return (JStr "2025-01-21").
Proof.
  split.
  - refine (proj1 (event_time_prefers_date_time _ "start") _ _ _ _ _); reflexivity.
  - refine (proj1 (proj2 (event_time_prefers_date_time _ "end")) _ _ _ _ _); reflexivity.
Defined.

(** A description that is a text is reported by its first 500 characters
    at most: what is reported is a beginning of the description, never
    longer than 500. *)
Theorem event_description_bound (e : list (string * json)) (s : string) :
  dict_get e "description" = Some (JStr s) ->
  exists shown rest,
    event_description (JObj e) = Return (JStr shown) /\
    String.length shown <= 500 /\
    s = String.append shown rest.
Proof.
  intros Hd. unfold event_description. cbn [py_get obind]. rewrite Hd.
  cbn [json_truthy]. unfold truthy_str.
  destruct (String.eqb_spec s "") as [->|Hne]; cbn [negb].
  - exists "", "". repeat split. apply Nat.le_0_l.
  - cbn [py_slice_to]. destruct (slice_to_prefix 500 s) as [rest Hrest].
    exists (slice_to 500 s), rest. repeat split; [|exact Hrest].
    rewrite slice_to_length. apply Nat.le_min_l.
Qed.

Lemma event_description_bound_witness :
  exists shown rest,
    event_description (JObj [("id", JStr "e1"); ("description", JStr (filler 600))])
    = Return (JStr shown) /\
    String.length shown <= 500 /\
    filler 600 = String.append shown rest.
Proof.
  apply (event_description_bound [("id", JStr "e1"); ("description", JStr (filler 600))]
           (filler 600)).
  reflexivity.
Defined.

Lemma event_entry_inv (e : list (string * json)) (entry : json) :
  event_entry (JObj e) = Return entry ->
  exists id summary start end_ location description,
    event_time (JObj e) "start" = Return start /\
    event_time (JObj e) "end" = Return end_ /\
    event_description (JObj e) = Return description /\
    entry = JObj [ ("id", id); ("summary", summary); ("start", start); ("end", end_);
                   ("location", location); ("description", description) ].
Proof.
  unfold event_entry.
  destruct (py_index (JObj e) "id") as [x|id]; cbn [obind]; [discriminate|].
  destruct (py_get (JObj e) "summary" (JStr "(No title)")) as [x|summary];
    cbn [obind]; [discriminate|].
  destruct (event_time (JObj e) "start") as [x|start]; cbn [obind]; [discriminate|].
  destruct (event_time (JObj e) "end") as [x|end_]; cbn [obind]; [discriminate|].
  destruct (py_get (JObj e) "location" (JStr "")) as [x|location];
    cbn [obind]; [discriminate|].
  destruct (event_description (JObj e)) as [x|description]; cbn [obind]; [discriminate|].
  intros [= <-]. exists id, summary, start, end_, location, description.
  repeat split.
Qed.

(** The [start] and the [end] an entry of [calendar_list_events] reports
    for an event are the event's [dateTime] when that is present and
    non-empty (even beside a [date]), its [date] when there is no [dateTime]
    (an all-day event), and [None] when the event has no such field. *)
Theorem event_entry_times (e : list (string * json)) (entry : json) (key : string) :
  key = "start" \/ key = "end" ->
  event_entry (JObj e) = Return entry ->
  exists out reported,
    entry = JObj out /\
    dict_get out key = Some reported /\
    (forall t v, dict_get e key = Some (JObj t) ->
                 dict_get t "dateTime" = Some v ->
                 json_truthy v = true ->
                 reported = v) /\
    (forall t v, dict_get e key = Some (JObj t) ->
                 dict_get t "dateTime" = None ->
                 dict_get t "date" = Some v ->
                 reported = v) /\
    (dict_get e key = None -> reported = JNull).
Proof.
  intros Hkey Hentry.
  destruct (event_entry_inv e entry Hentry)
    as (id & summary & start & end_ & location & description & Hst & Hen & _ & ->).
  destruct (event_time_prefers_date_time e key) as (Hdt & Hdate & Hnone).
  assert (Hrep : exists reported,
             event_time (JObj e) key = Return reported /\
             dict_get [ ("id", id); ("summary", summary); ("start", start); ("end", end_);
                        ("location", location); ("description", description) ] key
             = Some reported).
  { destruct Hkey as [-> | ->]; eauto. }
  destruct Hrep as (reported & Hrun & Hlook).
  eexists. exists reported. repeat apply conj.
  - reflexivity.
  - exact Hlook.
  - intros t v H1 H2 H3. specialize (Hdt t v H1 H2 H3). congruence.
  - intros t v H1 H2 H3. specialize (Hdate t v H1 H2 H3). congruence.
  - intros H1. specialize (Hnone H1). congruence.
Qed.

(** The [description] an entry of [calendar_list_events] reports for an
    event whose description is a text is a beginning of that text of at most
    500 characters; an event without description is reported with the empty
    text. *)
Theorem event_entry_description (e : list (string * json)) (entry : json) :
  event_entry (JObj e) = Return entry ->
  exists out,
    entry = JObj out /\
    (forall s, dict_get e "description" = Some (JStr s) ->
               exists shown rest,
                 dict_get out "description" = Some (JStr shown) /\
                 String.length shown <= 500 /\
                 s = String.append shown rest) /\
    (dict_get e "description" = None -> dict_get out "description" = Some (JStr "")).
Proof.
  intros Hentry.
  destruct (event_entry_inv e entry Hentry)
    as (id & summary & start & end_ & location & description & _ & _ & Hde & ->).
  eexists. repeat apply conj.
  - reflexivity.
  - intros s Hs.
    destruct (event_description_bound e s Hs) as (shown & rest & Hrun & Hlen & Hrest).
    exists shown, rest. repeat apply conj; [|exact Hlen|exact Hrest].
    cbn [dict_get String.eqb Ascii.eqb Bool.eqb]. congruence.
  - intros Hnone. cbn [dict_get String.eqb Ascii.eqb Bool.eqb].
    unfold event_description in Hde. cbn [py_get obind] in Hde. rewrite Hnone in Hde.
    cbn [json_truthy] in Hde. congruence.
Qed.

Lemma event_entry_times_witness :
  exists out reported,
    JObj [ ("id", JStr "e1"); ("summary", JStr "(No title)");
           ("start", JStr "2025-01-20T10:00:00Z"); ("end", JStr "2025-01-21");
           ("location", JStr ""); ("description", JStr "") ] = JObj out /\
    dict_get out "start" = Some reported /\
    (forall t v, dict_get sample_event "start" = Some (JObj t) ->
                 dict_get t "dateTime" = Some v ->
                 json_truthy v = true ->
                 reported = v) /\
    (forall t v, dict_get sample_event "start" = Some (JObj t) ->
                 dict_get t "dateTime" = None ->
                 dict_get t "date" = Some v ->
                 reported = v) /\
    (dict_get sample_event "start" = None -> reported = JNull).
Proof.
  apply (event_entry_times sample_event _ "start").
  - left. reflexivity.
  - reflexivity.
Defined.

Lemma event_entry_description_witness :
  exists out,
    JObj [ ("id", JStr "e2"); ("summary", JStr "Review"); ("start", JNull); ("end", JNull);
           ("location", JStr ""); ("description", JStr (filler 500)) ] = JObj out /\
    (forall s, dict_get long_event "description" = Some (JStr s) ->
               exists shown rest,
                 dict_get out "description" = Some (JStr shown) /\
                 String.length shown <= 500 /\
                 s = String.append shown rest) /\
    (dict_get long_event "description" = None ->
     dict_get out "description" = Some (JStr "")).
Proof.
  apply (event_entry_description long_event).
  vm_compute; reflexivity.
Defined.

(** ** The remaining tools *)

Section RestToolFacts.
Context {ext : Externals} {rest : RestExternals}.

(** When the credentials cannot be resolved, each of the other four
    tools raises the error of [get_credentials] and sends no request. *)
Theorem rest_tools_stop_without_credentials (account : string) (e : exn)
    (s : Session) (w1 : World) :
  get_credentials account (world s) = (Raise e, w1) ->
  gmail_get_profile account s = (Raise e, mkSession w1 (sent s)) /\
  calendar_list account s = (Raise e, mkSession w1 (sent s)) /\
  (forall calendar_id time_min time_max max_results query,
      calendar_list_events calendar_id time_min time_max max_results query account s
      = (Raise e, mkSession w1 (sent s))) /\
  (forall event_id calendar_id,
      calendar_delete_event event_id calendar_id account s
      = (Raise e, mkSession w1 (sent s))).
Proof.
  intros Hc. repeat apply conj; intros;
    unfold gmail_get_profile, calendar_list, calendar_list_events, calendar_delete_event,
      get_gmail, get_calendar; unfold bindN at 1, run; now rewrite Hc.
Qed.

(** Deleting sends one request and does not look at the answer: when the
    request returns, the result is the dump of [deleted: true] with the
    event id passed in; when it raises, that error is raised. *)
Theorem calendar_delete_event_result (event_id calendar_id account : string)
    (s : Session) (w1 : World) (c : Credentials) :
  get_calendar account (world s) = (Return c, w1) ->
  calendar_delete_event event_id calendar_id account s
  = (match execute_rest c (EventsDelete calendar_id event_id) with
     | Return _ =>
         Return (json_dumps_compact
                   (JObj [("deleted", JBool true); ("event_id", JStr event_id)]))
     | Raise e => Raise e
     end,
     mkSession w1 (sent s ++ [(c, EventsDelete calendar_id event_id)])).
Proof.
  intros Hc. unfold calendar_delete_event, bindN, run, call_rest, retN.
  rewrite Hc. cbn [world sent].
  destruct (execute_rest c _); reflexivity.
Qed.

(** Listing events sends one request, built from the arguments alone, and
    an answer without [items] gives the dump of the empty list. *)
Theorem calendar_list_events_without_items (calendar_id : string)
    (time_min time_max : option string) (max_results : Z) (query : option string)
    (account : string) (s : Session) (w1 : World) (c : Credentials)
    (results : list (string * json)) :
  get_calendar account (world s) = (Return c, w1) ->
  execute_rest c (EventsList (list_events_kwargs calendar_id time_min time_max
                                max_results query))
  = Return (JObj results) ->
  dict_get results "items" = None ->
  calendar_list_events calendar_id time_min time_max max_results query account s
  = (Return (json_dumps 2 (JArr [])),
     mkSession w1
       (sent s ++ [(c, EventsList (list_events_kwargs calendar_id time_min time_max
                                     max_results query))])).
Proof.
  intros Hc Hex Hi. unfold calendar_list_events, bindN, run, call_rest, liftN, retN.
  rewrite Hc. cbv zeta. cbn [world sent]. rewrite Hex. cbn [py_get]. now rewrite Hi.
Qed.

(** [calendar_list_events] returns the dump of one [event_entry] per
    listed event, in the order of the list. *)
Lemma calendar_list_events_entries (calendar_id : string)
    (time_min time_max : option string) (max_results : Z) (query : option string)
    (account : string) (s : Session) (w1 : World) (c : Credentials)
    (results events : json) (items output : list json) :
  get_calendar account (world s) = (Return c, w1) ->
  execute_rest c (EventsList (list_events_kwargs calendar_id time_min time_max
                                max_results query))
  = Return results ->
  py_get results "items" (JArr []) = Return events ->
  py_iter events = Return items ->
  omap event_entry items = Return output ->
  calendar_list_events calendar_id time_min time_max max_results query account s
  = (Return (json_dumps 2 (JArr output)),
     mkSession w1
       (sent s ++ [(c, EventsList (list_events_kwargs calendar_id time_min time_max
                                     max_results query))])).
Proof.
  intros Hc Hex Hi Hit Ho. unfold calendar_list_events, bindN, run, call_rest, liftN, retN.
  rewrite Hc. cbv zeta. cbn [world sent]. rewrite Hex, Hi, Hit. now rewrite Ho.
Qed.

End RestToolFacts.

Lemma rest_tools_stop_without_credentials_witness :
  calendar_delete_event (ext := sample) (rest := sample_rest) "e1" "primary" "home"
    (fresh_session deployed_world)
  = (Raise (ValueError (unknown_account_msg "home")), fresh_session deployed_world).
Proof.
  refine (proj2 (proj2 (proj2 (rest_tools_stop_without_credentials
            (ext := sample) (rest := sample_rest) "home" _ (fresh_session deployed_world)
            deployed_world _))) "e1" "primary").
  reflexivity.
Defined.

Lemma calendar_delete_event_result_witness :
  calendar_delete_event (ext := sample) (rest := sample_rest) "gone" "primary" "personal"
    (fresh_session (local_world "V"))
  = (Raise (LibraryError "HttpError 410"),
     mkSession (after_load (local_world "V") true)
       [(tok_live, EventsDelete "primary" "gone")]).
Proof.
  apply (calendar_delete_event_result (ext := sample) (rest := sample_rest)
           "gone" "primary" "personal" (fresh_session (local_world "V"))
           (after_load (local_world "V") true) tok_live).
  vm_compute; reflexivity.
Defined.

Lemma calendar_list_events_without_items_witness :
  calendar_list_events (ext := sample) (rest := sample_rest) "primary" (Some "") None 25
    (Some "standup") "personal" (fresh_session (local_world "V"))
  = (Return (json_dumps (Externals := sample) 2 (JArr [])),
     mkSession (after_load (local_world "V") true)
       [(tok_live,
         EventsList [ ("calendarId", JStr "primary"); ("maxResults", JNum 25);
                      ("singleEvents", JBool true); ("orderBy", JStr "startTime");
                      ("q", JStr "standup") ])]).
Proof.
  apply (calendar_list_events_without_items (ext := sample) (rest := sample_rest)
           "primary" (Some "") None 25 (Some "standup") "personal"
           (fresh_session (local_world "V")) (after_load (local_world "V") true) tok_live []).
  - vm_compute; reflexivity.
  - reflexivity.
  - reflexivity.
Defined.

(** ** Start-up *)

(** Unless [MCP_TRANSPORT] is exactly [sse], start-up runs the server with
    its default transport and leaves the environment as it was.  With [sse]
    it announces port [PORT] (8000 when unset) on 0.0.0.0, runs the server
    with the [sse] transport, and sets [HOST] to 0.0.0.0 only when [HOST] is
    not set: a [HOST] already there, and every other variable, is kept. *)
Theorem main_transport (env : gmap string string) :
  (env !! "MCP_TRANSPORT" <> Some "sse" -> main env = (env, [McpRun None])) /\
  (env !! "MCP_TRANSPORT" = Some "sse" ->
   snd (main env)
   = [ Stdout (String.append "Starting MCP server on 0.0.0.0:"
                 (match env !! "PORT" with Some p => p | None => "8000" end));
       McpRun (Some "sse") ] /\
   fst (main env) !! "HOST"
   = Some (match env !! "HOST" with Some h => h | None => "0.0.0.0" end) /\
   (forall k, k <> "HOST" -> fst (main env) !! k = env !! k)).
Proof.
  unfold main, environ_get_default, environ_setdefault. split.
  - intros Hne. destruct (env !! "MCP_TRANSPORT") as [t|] eqn:Ht; [|reflexivity].
    destruct (String.eqb_spec t "sse") as [->|]; [congruence | reflexivity].
  - intros ->. cbn [String.eqb Ascii.eqb Bool.eqb fst snd].
    repeat apply conj.
    + reflexivity.
    + destruct (env !! "HOST") as [h|] eqn:Hh; cbn [fst]; [exact Hh|].
      apply lookup_insert_eq.
    + intros k Hk. destruct (env !! "HOST") as [h|] eqn:Hh; cbn [fst]; [reflexivity|].
      apply lookup_insert_ne. congruence.
Qed.

Lemma main_transport_witness :
  main {[ "MCP_TRANSPORT" := "SSE" ]} = ({[ "MCP_TRANSPORT" := "SSE" ]}, [McpRun None]) /\
  fst (main {[ "MCP_TRANSPORT" := "sse"; "HOST" := "127.0.0.1" ]}) !! "HOST"
  = Some "127.0.0.1".
Proof.
  split.
  - apply (proj1 (main_transport {[ "MCP_TRANSPORT" := "SSE" ]})).
    vm_compute. discriminate.
  - refine (proj1 (proj2 (proj2 (main_transport
              {[ "MCP_TRANSPORT" := "sse"; "HOST" := "127.0.0.1" ]}) _))).
    vm_compute; reflexivity.
Defined.
